(** * datamodel-code-generator: field type hints and model construction

    A shallow embedding of [datamodel_code_generator/model/base.py]
    ([optional], [DataModelField], [DataModel]) and of the component kind
    declared in [model/pydantic/custom_root_type.py], with the properties
    of the specification stated and settled against it.

    Python [str] values are sequences of Unicode code points; objects that
    the code mutates after sharing them (the field objects handed to a
    model) live in a store indexed by object identity. What the code asks
    of [pathlib], [jinja2] and the Unicode database is a parameter of the
    model; rendering is [jinja2]'s and is left out. *)

From Stdlib Require Import Strings.String Strings.Ascii NArith.
From stdpp Require Import base option list gmap.

Local Open Scope list_scope.
#[local] Set Warnings "-clear-no-such-hyp".

(** ** Python strings *)

(** A [str] is a sequence of code points. *)
Abbreviation pystr := (list N).

(** An ASCII literal of the source as a [str]. *)
Definition py (s : string) : pystr := N_of_ascii <$> list_ascii_of_string s.
Arguments py s%_string.

Module Str.

(** Truth value of a string: [if s] holds for the non-empty ones. *)
Definition truthy (s : pystr) : bool :=
  match s with [] => false | _ :: _ => true end.

(** [sep.join(parts)] *)
Fixpoint join (sep : pystr) (parts : list pystr) : pystr :=
  match parts with
  | [] => []
  | [p] => p
  | p :: rest => p ++ sep ++ join sep rest
  end.

(** [s.startswith(p)] *)
Fixpoint startswith (s p : pystr) {struct p} : bool :=
  match p, s with
  | [], _ => true
  | _ :: _, [] => false
  | c :: p', d :: s' => if N.eqb c d then startswith s' p' else false
  end.

(** [p in s]: [p] occurs in [s] as a substring. *)
Fixpoint contains (s p : pystr) : bool :=
  startswith s p ||
  match s with
  | [] => false
  | _ :: s' => contains s' p
  end.

(** [s.replace(old, new, 1)]: the leftmost occurrence of [old] is replaced,
    and [s] is returned as it is when there is none. *)
Fixpoint replace1 (s old new : pystr) : pystr :=
  if startswith s old then new ++ drop (length old) s
  else match s with
       | [] => []
       | c :: s' => c :: replace1 s' old new
       end.

(** [s.rsplit(sep, 1)] for a one-character separator, when [sep] occurs in
    [s]: the text before the last separator and the text after it. [None]
    when [s] has no separator (Python then returns the one-element list
    [[s]]). *)
Fixpoint rsplit1 (sep : N) (s : pystr) : option (pystr * pystr) :=
  match s with
  | [] => None
  | c :: s' =>
      match rsplit1 sep s' with
      | Some (a, b) => Some (c :: a, b)
      | None => if N.eqb c sep then Some ([], s') else None
      end
  end.

(** [s.rsplit(sep, 1)[-1]] *)
Definition rsplit1_last (sep : N) (s : pystr) : pystr :=
  match rsplit1 sep s with
  | Some (_, b) => b
  | None => s
  end.

End Str.

(** [s] is [a ++ p ++ b], and no occurrence of [p] in [s] starts before
    this one: [a] is the text before the leftmost occurrence. *)
Definition first_occurrence (s p a b : pystr) : Prop :=
  s = a ++ p ++ b /\
  forall a' b', s = a' ++ p ++ b' -> length a <= length a'.

(** [x or []] for an optional list. *)
Definition or_nil {A} (x : option (list A)) : list A :=
  match x with Some l => l | None => [] end.

(** The characters the source names. *)
Definition DOT : N := 46.
Definition UNDERSCORE : N := 95.

(** ** Imports and type atoms *)

(** Modelled from the spec: the module [datamodel_code_generator.imports]
    is not among the sources. An Import Record is an (origin, symbol) pair
    compared structurally; [from_full_path] splits a fully qualified path
    at its last dot (module = prefix, symbol = suffix), and a path with no
    dot has no origin. *)
Record Import : Type := mkImport { from_ : option pystr; import_ : pystr }.

#[global] Instance Import_eq_dec : EqDecision Import.
Proof. solve_decision. Defined.

Definition from_full_path (class_path : pystr) : Import :=
  match Str.rsplit1 DOT class_path with
  | Some (module, symbol) => mkImport (Some module) symbol
  | None => mkImport None class_path
  end.

(** Modelled from the spec: the constants of the absent imports module
    that the composer appends, which the spec calls the "List", "Union"
    and "Optional" imports. Each has the name as its symbol; the origin is
    taken to be [typing]. The proofs use only that the three differ. *)
Definition IMPORT_LIST : Import := mkImport (Some (py "typing")) (py "List").
Definition IMPORT_OPTIONAL : Import := mkImport (Some (py "typing")) (py "Optional").
Definition IMPORT_UNION : Import := mkImport (Some (py "typing")) (py "Union").

(** [datamodel_code_generator.types.DataType], as far as [base.py] reads
    it: the three attributes [type_hint], [imports_] and
    [unresolved_types]. *)
Module DataType.
Record t : Type := mk {
  type_hint : pystr;
  imports_ : option (list Import);
  unresolved_types : list pystr
}.
End DataType.

Definition UNION : pystr := py "Union".
Definition OPTIONAL : pystr := py "Optional".
Definition LIST : pystr := py "List".

(** [f'{outer}[{inner}]'] *)
Definition subscript (outer inner : pystr) : pystr :=
  outer ++ py "[" ++ inner ++ py "]".

(** ** Word characters

    [re.sub(r'\W', '_', name)] is applied to a [str] with no flags, so [\w]
    is the Unicode class: a code point is a word character when it is
    alphanumeric in the Unicode database or the underscore. The database
    is not part of the sources: the classes of ASCII and Latin-1 are
    written out, the class of the code points from U+0100 on is the
    parameter [wide_word]. *)

Definition between (lo hi c : N) : bool := N.leb lo c && N.leb c hi.

Definition ascii_word (c : N) : bool :=
  between 48 57 c || between 65 90 c || between 97 122 c || N.eqb c UNDERSCORE.

(** U+00AA, U+00B5, U+00BA and the letters U+00C0..U+00FF (without the
    signs U+00D7 and U+00F7); the digits U+00B2, U+00B3, U+00B9 and the
    fractions U+00BC..U+00BE. *)
Definition latin1_word (c : N) : bool :=
  N.eqb c 170 || N.eqb c 181 || N.eqb c 186 ||
  between 192 214 c || between 216 246 c || between 248 255 c ||
  N.eqb c 178 || N.eqb c 179 || N.eqb c 185 || between 188 190 c.

Definition is_word (wide_word : N -> bool) (c : N) : bool :=
  if N.ltb c 128 then ascii_word c
  else if N.ltb c 256 then latin1_word c
  else wide_word c.

(** ** DataModelField *)

(** What the construction of a field can raise: the error [pydantic]
    reports when a validator fails. *)
Inductive field_exn : Type :=
| ValidationError.

Module DataModelField.

Record t : Type := mk {
  name : option pystr;
  default : option pystr;
  required : bool;
  alias : option pystr;
  example : option pystr;
  description : option pystr;
  data_types : list DataType.t;
  is_list : bool;
  is_union : bool;
  imports : list Import;
  type_hint : option pystr;
  unresolved_types : list pystr
}.

Definition set_alias (self : t) (v : option pystr) : t :=
  mk (name self) (default self) (required self) v (example self)
     (description self) (data_types self) (is_list self) (is_union self)
     (imports self) (type_hint self) (unresolved_types self).

Definition set_imports (self : t) (v : list Import) : t :=
  mk (name self) (default self) (required self) (alias self) (example self)
     (description self) (data_types self) (is_list self) (is_union self)
     v (type_hint self) (unresolved_types self).

Definition set_type_hint (self : t) (v : option pystr) : t :=
  mk (name self) (default self) (required self) (alias self) (example self)
     (description self) (data_types self) (is_list self) (is_union self)
     (imports self) v (unresolved_types self).

Definition set_unresolved_types (self : t) (v : list pystr) : t :=
  mk (name self) (default self) (required self) (alias self) (example self)
     (description self) (data_types self) (is_list self) (is_union self)
     (imports self) (type_hint self) v.

(** [self.imports.append(i)] *)
Definition append_import (i : Import) (self : t) : t :=
  set_imports self (imports self ++ [i]).

(** The body of [_get_type_hint], before its decorator: the state of
    [self] after the call, and the value returned. *)
Definition _get_type_hint_func (self : t) : t * option pystr :=
  let type_hint := Str.join (py ", ") (DataType.type_hint <$> data_types self) in
  if negb (Str.truthy type_hint) then
    if is_list self then (append_import IMPORT_LIST self, Some LIST)
    else (self, Some [])
  else if Nat.eqb (length (data_types self)) 1 then
    if is_list self then
      (append_import IMPORT_LIST self, Some (subscript LIST type_hint))
    else (self, Some type_hint)
  else if is_list self then
    let self := append_import IMPORT_LIST self in
    if is_union self then
      (append_import IMPORT_UNION self,
       Some (subscript LIST (subscript UNION type_hint)))
    else (self, Some (subscript LIST type_hint))
  else (append_import IMPORT_UNION self, Some (subscript UNION type_hint)).

(** The decorator [optional]: [inner] for a given [func]. *)
Definition optional (func : t -> t * option pystr) (self : t) : t * option pystr :=
  let '(self, type_hint) := func self in
  if required self then (self, type_hint)
  else
    let self := append_import IMPORT_OPTIONAL self in
    match type_hint with
    | None | Some [] => (self, Some OPTIONAL)
    | Some h => (self, Some (subscript OPTIONAL h))
    end.

Definition _get_type_hint : t -> t * option pystr := optional _get_type_hint_func.

(** The keyword arguments of the constructor. [kw_name] tells a missing
    [name] key ([None]) from a key that is present, with a string or with
    Python's [None]; every other argument is given with its declared
    default when the caller leaves it out. *)
Record kwargs : Type := mk_kwargs {
  kw_name : option (option pystr);
  kw_default : option pystr;
  kw_required : bool;
  kw_alias : option pystr;
  kw_example : option pystr;
  kw_description : option pystr;
  kw_data_types : list DataType.t;
  kw_is_list : bool;
  kw_is_union : bool;
  kw_imports : list Import;
  kw_type_hint : option pystr;
  kw_unresolved_types : list pystr
}.

(** Truth value of an [Optional[str]]. *)
Definition truthy_opt (s : option pystr) : bool :=
  match s with Some s => Str.truthy s | None => false end.

(** One turn of the loop over [self.data_types] in [__init__]. *)
Definition absorb (self : t) (data_type : DataType.t) : t :=
  let self :=
    set_unresolved_types self
      (unresolved_types self ++ DataType.unresolved_types data_type) in
  match DataType.imports_ data_type with
  | Some (i :: l) => set_imports self (imports self ++ i :: l)
  | _ => self
  end.

Section WithUnicode.
Variable wide_word : N -> bool.

(** The validator of [name]: [re.sub(r'\W', '_', name)]. *)
Definition validate_name (name : pystr) : pystr :=
  (fun c => if is_word wide_word c then c else UNDERSCORE) <$> name.

(** The validation of [name] that [pydantic] runs before the body of
    [__init__]. A missing [name] is left at its default [None] and the
    validator is not run. The validator runs on a [name] that is given,
    also on Python's [None]: there [re.sub] raises, which [pydantic]
    reports as a [ValidationError]. *)
Definition validated_name (given : option (option pystr)) : field_exn + option pystr :=
  match given with
  | None => inr None
  | Some (Some raw) => inr (Some (validate_name raw))
  | Some None => inl ValidationError
  end.

(** Construction of a field from keyword arguments: the validation, which
    can raise, then the body of [__init__] on the validated attributes. *)
Definition __init__ (values : kwargs) : field_exn + t :=
  match validated_name (kw_name values) with
  | inl error => inl error
  | inr name =>
      let self :=
        mk name (kw_default values)
           (kw_required values) (kw_alias values) (kw_example values)
           (kw_description values) (kw_data_types values) (kw_is_list values)
           (kw_is_union values) (kw_imports values) (kw_type_hint values)
           (kw_unresolved_types values) in
      let self :=
        match kw_name values with
        | Some raw => if negb (truthy_opt (alias self)) then set_alias self raw else self
        | None => self
        end in
      let self := foldl absorb self (data_types self) in
      let '(self, hint) := _get_type_hint self in
      inr (set_type_hint self hint)
  end.

End WithUnicode.

End DataModelField.

(** ** The store of field objects

    A model receives field objects that its caller still holds, and writes
    to them. Objects are named by their identity; the store gives each
    live field object its current state. *)
Abbreviation loc := nat.
Abbreviation store := (gmap loc DataModelField.t).

(** The per-model template data (the constructor only passes it on; its
    values are taken to be text), and the shared mapping from model names
    to it (a [defaultdict] whose missing entries are created empty on
    lookup). *)
Abbreviation Dict := (gmap pystr pystr).

(** What the constructor asks of [pathlib] and [jinja2]: the last
    component of a path, the join of a directory and a name, whether a
    path exists, and the template read from a path under [TEMPLATE_DIR]
    ([None] when reading the text or building the template raises). *)
Record Env : Type := mkEnv {
  path_name : pystr -> pystr;
  path_join : pystr -> pystr -> pystr;
  path_exists : pystr -> bool;
  load_template : pystr -> option pystr
}.

Inductive exn : Type :=
| Exception (msg : pystr)
| TemplateLoadError (path : pystr).

(** ** TemplateBase and DataModel *)

Module DataModel.

(** The class attributes a component kind sets. *)
Record cls : Type := mk_cls {
  TEMPLATE_FILE_PATH : pystr;
  BASE_CLASS : pystr
}.

Record t : Type := mk {
  name : pystr;
  fields : list loc;
  decorators : list pystr;
  imports : list Import;
  base_class : pystr;
  base_classes : list pystr;
  reference_classes : list pystr;
  class_name : pystr;
  extra_template_data : Dict;
  template_file_path : pystr;
  _template : pystr
}.

(** The list object passed as [imports]. The constructor keeps the object
    it is given and appends to it in place, so it matters whose list it
    is: a list of the caller's own, which no field object holds, or the
    very list that a field object holds as its [imports]. Every field
    object holds a list of its own, as its constructor builds it; a
    reference to an object that the store does not hold stands for an
    empty list. *)
Inductive imports_ref : Type :=
| Own (l : list Import)
| Held (field : loc).

(** The arguments of the constructor; [None] is an argument left at its
    default [None]. *)
Record args : Type := mk_args {
  a_name : pystr;
  a_fields : list loc;
  a_decorators : option (list pystr);
  a_base_classes : option (list pystr);
  a_custom_base_class : option pystr;
  a_custom_template_dir : option pystr;
  a_extra_template_data : option (gmap pystr Dict);
  a_imports : option imports_ref;
  a_auto_import : bool;
  a_reference_classes : option (list pystr)
}.

(** The state after a call and its result: the field objects, the shared
    template data, the model or the exception raised, and what a list of
    the caller's own that was passed as [imports] holds after the call. *)
Record outcome : Type := mk_outcome {
  out_store : store;
  out_extra_template_data : option (gmap pystr Dict);
  out_result : exn + t;
  out_imports : option (list Import)
}.

(** The list object bound to [self.imports]: a list that no field object
    holds, or the one that a field object holds. *)
Inductive imports_cell : Type :=
| Unshared (l : list Import)
| Shared (field : loc).

(** [self.imports = imports or []]: the list passed when it is not empty,
    a new empty list otherwise. *)
Definition bind_imports (imports : option imports_ref) (heap : store) : imports_cell :=
  match imports with
  | None => Unshared []
  | Some (Own l) => Unshared l
  | Some (Held field) =>
      match DataModelField.imports <$> heap !! field with
      | Some (_ :: _) => Shared field
      | _ => Unshared []
      end
  end.

(** What [self.imports] holds. *)
Definition cell_read (imports : imports_cell) (heap : store) : list Import :=
  match imports with
  | Unshared l => l
  | Shared field => default [] (DataModelField.imports <$> heap !! field)
  end.

(** [self.imports.extend(items)], in place: when the list is the one a
    field object holds, it is that field that changes. *)
Definition cell_extend (items : list Import) (imports : imports_cell) (heap : store)
    : imports_cell * store :=
  match imports with
  | Unshared l => (Unshared (l ++ items), heap)
  | Shared field =>
      (Shared field,
       alter (fun f => DataModelField.set_imports f (DataModelField.imports f ++ items))
             field heap)
  end.

(** What a list of the caller's own holds after the call: an empty list
    was replaced by a new one and stays empty, any other list is the one
    the constructor appended to. *)
Definition own_list_after (imports : option imports_ref) (final : list Import)
    : option (list Import) :=
  match imports with
  | Some (Own []) => Some []
  | Some (Own (_ :: _)) => Some final
  | _ => None
  end.

(** A list of the caller's own as it was passed. *)
Definition own_list (imports : option imports_ref) : option (list Import) :=
  match imports with
  | Some (Own l) => Some l
  | _ => None
  end.

(** [[base_class for base_class in base_classes or [] if base_class]] *)
Definition given_base_classes (base_classes : option (list pystr)) : list pystr :=
  filter (fun base_class => Str.truthy base_class) (or_nil base_classes).

(** Lines 146-150: the base classes other than [BASE_CLASS], then the
    references given to the constructor. *)
Definition seed_reference_classes (BASE : pystr) (base_classes : list pystr)
    (reference_classes : option (list pystr)) : list pystr :=
  (match base_classes with
   | [] => []
   | _ :: _ => filter (fun r => r <> BASE) base_classes
   end) ++ or_nil reference_classes.

(** Lines 152-159: what is appended to [self.imports] (one import, or
    nothing), and the base-class expression. *)
Definition resolve_base_class (BASE : pystr) (base_classes : list pystr)
    (custom_base_class : option pystr) (auto_import : bool)
    : list Import * pystr :=
  match base_classes with
  | _ :: _ => ([], Str.join (py ", ") base_classes)
  | [] =>
      let base_class_full_path :=
        if DataModelField.truthy_opt custom_base_class
        then default [] custom_base_class else BASE in
      let appended :=
        if auto_import && Str.truthy base_class_full_path
        then [from_full_path base_class_full_path] else [] in
      (appended, Str.rsplit1_last DOT base_class_full_path)
  end.

(** Lines 164-165. *)
Definition strip_base_class (prefix base_class : pystr) : pystr :=
  if Str.startswith base_class prefix
  then Str.replace1 base_class prefix [] else base_class.

(** Lines 167-169: one turn of the loop over the fields, on the state of
    the field object. *)
Definition strip_type_hint (prefix : pystr) (field : DataModelField.t) : DataModelField.t :=
  match DataModelField.type_hint field with
  | Some type_hint =>
      if Str.contains type_hint prefix
      then DataModelField.set_type_hint field (Some (Str.replace1 type_hint prefix []))
      else field
  | None => field
  end.

(** Lines 166-169: the loop, on the store. *)
Definition strip_fields (prefix : pystr) (heap : store) (fields : list loc) : store :=
  foldl (fun heap field => alter (strip_type_hint prefix) field heap) heap fields.

(** The field objects a list of references names, in order. *)
Definition objects (heap : store) (fields : list loc) : list DataModelField.t :=
  omap (fun field => heap !! field) fields.

(** Lines 181-183. *)
Definition collect_unresolved (fields : list DataModelField.t) : gset pystr :=
  foldl (fun unresolved_types field =>
           unresolved_types ∪ list_to_set (DataModelField.unresolved_types field))
        ∅ fields.

(** Lines 188-189: [self.imports.extend(field.imports)] for each field in
    turn, each field read in the state it has at that time. *)
Definition extend_imports (imports : imports_cell) (heap : store) (fields : list loc)
    : imports_cell * store :=
  foldl (fun state field =>
           match snd state !! field with
           | Some f => cell_extend (DataModelField.imports f) (fst state) (snd state)
           | None => state
           end)
        (imports, heap) fields.

(** Lines 175-179: the entry of the shared mapping under the model's name,
    created empty when it is missing. *)
Definition lookup_extra (shared : option (gmap pystr Dict)) (name : pystr)
    : option (gmap pystr Dict) * Dict :=
  match shared with
  | Some d =>
      let entry := default ∅ (d !! name) in
      (Some (<[name := entry]> d), entry)
  | None => (None, ∅)
  end.

(** Lines 132-136. *)
Definition resolve_template (env : Env) (TEMPLATE : pystr)
    (custom_template_dir : option pystr) : pystr :=
  match custom_template_dir with
  | Some dir =>
      let custom_template_file_path := path_join env dir (path_name env TEMPLATE) in
      if path_exists env custom_template_file_path
      then custom_template_file_path else TEMPLATE
  | None => TEMPLATE
  end.

(** [DataModel.__init__], followed by [TemplateBase.__init__]. The test
    ['.' in name] and [name.rsplit('.', 1)] are one match: [rsplit1] finds
    a separator exactly when the name has a dot. *)
Definition __init__ (env : Env) (self : cls) (a : args) (heap : store) : outcome :=
  if negb (Str.truthy (TEMPLATE_FILE_PATH self)) then
    mk_outcome heap (a_extra_template_data a)
      (inl (Exception (py "TEMPLATE_FILE_PATH is undefined")))
      (own_list (a_imports a))
  else
    let template_file_path :=
      resolve_template env (TEMPLATE_FILE_PATH self) (a_custom_template_dir a) in
    let name := a_name a in
    let fields := a_fields a in
    let decorators := or_nil (a_decorators a) in
    let imports := bind_imports (a_imports a) heap in
    let base_classes := given_base_classes (a_base_classes a) in
    let reference_classes :=
      seed_reference_classes (BASE_CLASS self) base_classes (a_reference_classes a) in
    let '(appended, base_class) :=
      resolve_base_class (BASE_CLASS self) base_classes (a_custom_base_class a)
        (a_auto_import a) in
    let '(imports, heap) := cell_extend appended imports heap in
    let '(base_class, heap, class_name) :=
      match Str.rsplit1 DOT name with
      | Some (module, class_name) =>
          let prefix := module ++ [DOT] in
          (strip_base_class prefix base_class, strip_fields prefix heap fields,
           class_name)
      | None => (base_class, heap, name)
      end in
    let '(shared, extra_template_data) :=
      lookup_extra (a_extra_template_data a) name in
    let unresolved_types := collect_unresolved (objects heap fields) in
    let reference_classes :=
      elements (list_to_set reference_classes ∪ unresolved_types) in
    let '(imports, heap) :=
      if a_auto_import a then extend_imports imports heap fields
      else (imports, heap) in
    let held := own_list_after (a_imports a) (cell_read imports heap) in
    match load_template env template_file_path with
    | None =>
        mk_outcome heap shared (inl (TemplateLoadError template_file_path)) held
    | Some template =>
        mk_outcome heap shared
          (inr (mk name fields decorators (cell_read imports heap) base_class
                   base_classes reference_classes class_name extra_template_data
                   template_file_path template))
          held
    end.

(** The arguments with another [base_classes]. *)
Definition with_base_classes (a : args) (base_classes : option (list pystr)) : args :=
  mk_args (a_name a) (a_fields a) (a_decorators a) base_classes
    (a_custom_base_class a) (a_custom_template_dir a) (a_extra_template_data a)
    (a_imports a) (a_auto_import a) (a_reference_classes a).

End DataModel.

(** The component kind of [model/pydantic/custom_root_type.py]; its
    constructor passes every argument on to [DataModel.__init__]. *)
Definition CustomRootType : DataModel.cls :=
  DataModel.mk_cls (py "pydantic/BaseModel_root.jinja2") (py "pydantic.BaseModel").

(** [DataModel] itself leaves both class attributes empty. *)
Definition AbstractDataModel : DataModel.cls := DataModel.mk_cls [] [].

(** ** The composition rules in the words of the specification

    The reference the code is compared with: the rules of section 4.1, by
    the number of atoms. *)

Module Spec.

(** Steps 1 to 4, by the number of atoms. *)
Definition pre_wrap (atoms : list pystr) (is_repeated is_union_of_repeated : bool) : pystr :=
  let joined := Str.join (py ", ") atoms in
  match atoms with
  | [] => if is_repeated then py "List" else py ""
  | [atom] => if is_repeated then py "List[" ++ atom ++ py "]" else atom
  | _ =>
      if is_repeated then
        if is_union_of_repeated then py "List[Union[" ++ joined ++ py "]]"
        else py "List[" ++ joined ++ py "]"
      else py "Union[" ++ joined ++ py "]"
  end.

(** Step 5. *)
Definition wrap (required : bool) (hint : pystr) : pystr :=
  if required then hint
  else match hint with
       | [] => py "Optional"
       | _ :: _ => py "Optional[" ++ hint ++ py "]"
       end.

Definition composed_type_hint (atoms : list pystr)
    (is_repeated is_union_of_repeated required : bool) : pystr :=
  wrap required (pre_wrap atoms is_repeated is_union_of_repeated).

(** Full match of [^[A-Za-z0-9_]*$]: every character is of the class. *)
Definition identifier_text (s : pystr) : bool := forallb ascii_word s.

End Spec.

(** ** Closed forms of what the code computes *)

(** The atoms that carry text: one atom whose hint is the empty string
    counts as no atom (the code tests the joined text, not the number of
    atoms). *)
Definition effective_atoms (atoms : list pystr) : list pystr :=
  match atoms with
  | [[]] => []
  | _ => atoms
  end.

(** The imports the composer appends, in the order in which it appends
    them: [IMPORT_LIST] for a repeated field, [IMPORT_UNION] where a union
    is written, [IMPORT_OPTIONAL] for a field that is not required. *)
Definition implied_imports (atoms : list pystr)
    (is_repeated is_union_of_repeated required : bool) : list Import :=
  (if is_repeated then [IMPORT_LIST] else []) ++
  (match atoms with
   | _ :: _ :: _ =>
       if is_repeated then
         if is_union_of_repeated then [IMPORT_UNION] else []
       else [IMPORT_UNION]
   | _ => []
   end) ++
  (if required then [] else [IMPORT_OPTIONAL]).

(** The hints of a field's atoms, in order. *)
Definition atom_hints (self : DataModelField.t) : list pystr :=
  DataType.type_hint <$> DataModelField.data_types self.

(** The field a constructor call returns when the validation passes. *)
Definition field_closed_form (wide_word : N -> bool) (values : DataModelField.kwargs)
    (alias_after : option pystr) : DataModelField.t :=
  let atoms := DataType.type_hint <$> DataModelField.kw_data_types values in
  let l := DataModelField.kw_is_list values in
  let u := DataModelField.kw_is_union values in
  let r := DataModelField.kw_required values in
  DataModelField.mk
    (DataModelField.validate_name wide_word <$> mjoin (DataModelField.kw_name values))
    (DataModelField.kw_default values) r alias_after
    (DataModelField.kw_example values) (DataModelField.kw_description values)
    (DataModelField.kw_data_types values) l u
    (DataModelField.kw_imports values
     ++ concat ((fun d => or_nil (DataType.imports_ d))
                  <$> DataModelField.kw_data_types values)
     ++ implied_imports atoms l u r)
    (Some (Spec.composed_type_hint (effective_atoms atoms) l u r))
    (DataModelField.kw_unresolved_types values
     ++ concat (DataType.unresolved_types <$> DataModelField.kw_data_types values)).

(** The alias a constructor call ends with. *)
Definition alias_after (values : DataModelField.kwargs) : option pystr :=
  match DataModelField.kw_name values with
  | Some raw =>
      if DataModelField.truthy_opt (DataModelField.kw_alias values)
      then DataModelField.kw_alias values else raw
  | None => DataModelField.kw_alias values
  end.

(** The base-class expression before the module prefix is taken off. *)
Definition unstripped_base_class (self : DataModel.cls) (a : DataModel.args) : pystr :=
  snd (DataModel.resolve_base_class (DataModel.BASE_CLASS self)
         (DataModel.given_base_classes (DataModel.a_base_classes a))
         (DataModel.a_custom_base_class a) (DataModel.a_auto_import a)).

(** The store after the loop over the hints of the fields. *)
Definition store_after (a : DataModel.args) (heap : store) : store :=
  match Str.rsplit1 DOT (DataModel.a_name a) with
  | Some (module, _) => DataModel.strip_fields (module ++ [DOT]) heap (DataModel.a_fields a)
  | None => heap
  end.

(** The import of the default or custom base class, added when no base
    class is given and auto-import is on. *)
Definition base_class_import (self : DataModel.cls) (a : DataModel.args) : list Import :=
  match DataModel.given_base_classes (DataModel.a_base_classes a) with
  | _ :: _ => []
  | [] =>
      let base_class_full_path :=
        if DataModelField.truthy_opt (DataModel.a_custom_base_class a)
        then default [] (DataModel.a_custom_base_class a)
        else DataModel.BASE_CLASS self in
      if DataModel.a_auto_import a && Str.truthy base_class_full_path
      then [from_full_path base_class_full_path] else []
  end.

(** What the list passed as [imports] holds when the constructor is
    called. *)
Definition given_imports (a : DataModel.args) (heap : store) : list Import :=
  match DataModel.a_imports a with
  | None => []
  | Some (DataModel.Own l) => l
  | Some (DataModel.Held r) => default [] (DataModelField.imports <$> heap !! r)
  end.

(** What the loop over the hints does to one field object: the loop body
    once for each time the list of fields names the object, and nothing
    for a name without a dot. *)
Definition hint_rewrite (a : DataModel.args) (r : loc) (f : DataModelField.t)
    : DataModelField.t :=
  match Str.rsplit1 DOT (DataModel.a_name a) with
  | Some (module, _) =>
      Nat.iter (count_occ Nat.eq_dec (DataModel.a_fields a) r)
        (DataModel.strip_type_hint (module ++ [DOT])) f
  | None => f
  end.

(** The list bound to [self.imports] and the store, after the import of
    the base class is appended. *)
Definition appended_state (self : DataModel.cls) (a : DataModel.args) (heap : store)
    : DataModel.imports_cell * store :=
  DataModel.cell_extend
    (fst (DataModel.resolve_base_class (DataModel.BASE_CLASS self)
            (DataModel.given_base_classes (DataModel.a_base_classes a))
            (DataModel.a_custom_base_class a) (DataModel.a_auto_import a)))
    (DataModel.bind_imports (DataModel.a_imports a) heap) heap.

(** The store after the loop over the hints, which comes next. *)
Definition hints_state (self : DataModel.cls) (a : DataModel.args) (heap : store)
    : store :=
  store_after a (snd (appended_state self a heap)).

(** The list bound to [self.imports] and the store, when the constructor
    reaches the loading of the template. *)
Definition imports_state (self : DataModel.cls) (a : DataModel.args) (heap : store)
    : DataModel.imports_cell * store :=
  if DataModel.a_auto_import a
  then DataModel.extend_imports (fst (appended_state self a heap))
         (hints_state self a heap) (DataModel.a_fields a)
  else (fst (appended_state self a heap), hints_state self a heap).

(** What [self.imports] holds then. *)
Definition imports_after (self : DataModel.cls) (a : DataModel.args) (heap : store)
    : list Import :=
  DataModel.cell_read (fst (imports_state self a heap)) (snd (imports_state self a heap)).

(** One turn of the loop that extends [self.imports], when the list is the
    one that the field object [r] holds: at [r] the list is extended by
    itself, at any other field by that field's imports. *)
Definition shared_step (heap : store) (r : loc) (L : list Import) (x : loc)
    : list Import :=
  if decide (x = r) then L ++ L
  else L ++ default [] (DataModelField.imports <$> heap !! x).

(** Whether the list bound to [self.imports] is the one that the field
    object [x] holds. *)
Definition shares (imports : DataModel.imports_cell) (x : loc) : bool :=
  match imports with
  | DataModel.Shared r => bool_decide (r = x)
  | DataModel.Unshared _ => false
  end.

(** The call in which the list passed as [imports] is extended by itself:
    the list is the non-empty list that the field object [r] holds, [r]
    is one of the fields of the model, and auto-import is on. *)
Definition self_extending (a : DataModel.args) (heap : store) (r : loc) : Prop :=
  DataModel.a_imports a = Some (DataModel.Held r)
  /\ r ∈ DataModel.a_fields a
  /\ DataModel.a_auto_import a = true
  /\ given_imports a heap <> [].

(** The arguments with a list of the caller's own passed as [imports]. *)
Definition with_own_imports (a : DataModel.args) (l : list Import) : DataModel.args :=
  DataModel.mk_args (DataModel.a_name a) (DataModel.a_fields a)
    (DataModel.a_decorators a) (DataModel.a_base_classes a)
    (DataModel.a_custom_base_class a) (DataModel.a_custom_template_dir a)
    (DataModel.a_extra_template_data a) (Some (DataModel.Own l))
    (DataModel.a_auto_import a) (DataModel.a_reference_classes a).

(** The arguments with the list that the field object [r] holds passed as
    [imports]. *)
Definition with_held_imports (a : DataModel.args) (r : loc) : DataModel.args :=
  DataModel.mk_args (DataModel.a_name a) (DataModel.a_fields a)
    (DataModel.a_decorators a) (DataModel.a_base_classes a)
    (DataModel.a_custom_base_class a) (DataModel.a_custom_template_dir a)
    (DataModel.a_extra_template_data a) (Some (DataModel.Held r))
    (DataModel.a_auto_import a) (DataModel.a_reference_classes a).

(** ** Concrete inputs *)

(** A field state with the given atom hints and flags and nothing else:
    no name, no imports of its own, no hint computed yet. *)
Definition bare_field (atoms : list pystr) (is_list is_union required : bool)
    : DataModelField.t :=
  DataModelField.mk None None required None None None
    ((fun h => DataType.mk h None []) <$> atoms) is_list is_union [] None [].

(** Keyword arguments that give a name and atoms and leave the rest at
    its default. *)
Definition named_kwargs (name : pystr) (atoms : list DataType.t) (required : bool)
    : DataModelField.kwargs :=
  DataModelField.mk_kwargs (Some (Some name)) None required None None None
    atoms false false [] None [].

(** A Unicode database with no word character from U+0100 on. *)
Definition no_wide_word : N -> bool := fun _ => false.

(** An environment in which every template loads (as an empty text) and
    no custom template file exists. *)
Definition plain_env : Env :=
  mkEnv (Str.rsplit1_last 47) (fun dir name => dir ++ py "/" ++ name)
    (fun _ => false) (fun _ => Some (py "")).

(** Arguments that give a name, fields and base classes and leave the
    rest at its default. *)
Definition plain_args (name : pystr) (fields : list loc)
    (base_classes : option (list pystr)) : DataModel.args :=
  DataModel.mk_args name fields None base_classes None None None None true None.

(** Two constructed fields of a model [pkg.Widget]: a required one of
    type [pkg.Base], and an optional one with the atoms [pkg.A] and
    [pkg.B]. *)
Definition owner_kwargs : DataModelField.kwargs :=
  named_kwargs (py "owner") [DataType.mk (py "pkg.Base") None []] true.

Definition widget_owner : DataModelField.t :=
  DataModelField.mk (Some (py "owner")) None true (Some (py "owner")) None None
    [DataType.mk (py "pkg.Base") None []] false false [] (Some (py "pkg.Base")) [].

Definition parts_kwargs : DataModelField.kwargs :=
  named_kwargs (py "parts")
    [DataType.mk (py "pkg.A") None []; DataType.mk (py "pkg.B") None []] false.

Definition widget_parts : DataModelField.t :=
  DataModelField.mk (Some (py "parts")) None false (Some (py "parts")) None None
    [DataType.mk (py "pkg.A") None []; DataType.mk (py "pkg.B") None []] false false
    [IMPORT_UNION; IMPORT_OPTIONAL] (Some (py "Optional[Union[pkg.A, pkg.B]]")) [].

Definition widget_store : store := {[ 0 := widget_owner; 1 := widget_parts ]}.

(** A date import, and a field with two atoms that both need it. *)
Definition IMPORT_DATE : Import := mkImport (Some (py "datetime")) (py "date").

Definition span_kwargs : DataModelField.kwargs :=
  named_kwargs (py "span")
    [DataType.mk (py "date") (Some [IMPORT_DATE]) [];
     DataType.mk (py "date") (Some [IMPORT_DATE]) []] true.

Definition two_dates : DataModelField.t :=
  DataModelField.mk (Some (py "span")) None true (Some (py "span")) None None
    [DataType.mk (py "date") (Some [IMPORT_DATE]) [];
     DataType.mk (py "date") (Some [IMPORT_DATE]) []] false false
    [IMPORT_DATE; IMPORT_DATE; IMPORT_UNION] (Some (py "Union[date, date]")) [].

(** ** Further inputs and the rendering step *)

(** The keyword arguments with another [type_hint]. *)
Definition with_type_hint (values : DataModelField.kwargs) (h : option pystr)
    : DataModelField.kwargs :=
  DataModelField.mk_kwargs (DataModelField.kw_name values)
    (DataModelField.kw_default values) (DataModelField.kw_required values)
    (DataModelField.kw_alias values) (DataModelField.kw_example values)
    (DataModelField.kw_description values) (DataModelField.kw_data_types values)
    (DataModelField.kw_is_list values) (DataModelField.kw_is_union values)
    (DataModelField.kw_imports values) h (DataModelField.kw_unresolved_types values).

(** A field state with another [is_union]. *)
Definition with_is_union (self : DataModelField.t) (u : bool) : DataModelField.t :=
  DataModelField.mk (DataModelField.name self) (DataModelField.default self)
    (DataModelField.required self) (DataModelField.alias self)
    (DataModelField.example self) (DataModelField.description self)
    (DataModelField.data_types self) (DataModelField.is_list self) u
    (DataModelField.imports self) (DataModelField.type_hint self)
    (DataModelField.unresolved_types self).

(** The constructor arguments with another [custom_base_class]. *)
Definition with_custom_base_class (a : DataModel.args) (c : option pystr) : DataModel.args :=
  DataModel.mk_args (DataModel.a_name a) (DataModel.a_fields a)
    (DataModel.a_decorators a) (DataModel.a_base_classes a) c
    (DataModel.a_custom_template_dir a) (DataModel.a_extra_template_data a)
    (DataModel.a_imports a) (DataModel.a_auto_import a)
    (DataModel.a_reference_classes a).

(** [custom_base_class or self.BASE_CLASS] *)
Definition base_class_full_path (self : DataModel.cls) (a : DataModel.args) : pystr :=
  if DataModelField.truthy_opt (DataModel.a_custom_base_class a)
  then default [] (DataModel.a_custom_base_class a)
  else DataModel.BASE_CLASS self.

(** [CustomRootType.__init__]: every argument goes to the constructor of
    [DataModel], run with the class attributes of [CustomRootType]. *)
Definition CustomRootType__init__ (env : Env) (a : DataModel.args) (heap : store)
    : DataModel.outcome :=
  DataModel.__init__ env CustomRootType a heap.

(** A value handed to a template as a keyword argument: a text, a list of
    texts, or the field objects in their state at the time of the call. *)
Inductive template_value : Type :=
| VText (s : pystr)
| VTexts (l : list pystr)
| VFields (l : list DataModelField.t).

(** What rendering asks of [jinja2]: the text a loaded template gives for
    its keyword arguments, [None] when [jinja2] raises. *)
Abbreviation Renderer := (pystr -> gmap pystr template_value -> option pystr).

(** What a call of [render] can raise: Python's [TypeError] for a keyword
    argument given twice, or an exception of [jinja2]. *)
Inductive render_exn : Type :=
| TypeError
| RenderError.

(** The names [render] passes itself; a keyword argument may not be given twice. *)
Definition reserved_keywords : list pystr :=
  [py "class_name"; py "fields"; py "decorators"; py "base_class"].

Module Render.

(** The keyword arguments [render] writes out by name. *)
Definition named (heap : store) (self : DataModel.t) : gmap pystr template_value :=
  <[py "class_name" := VText (DataModel.class_name self)]>
  (<[py "fields" := VFields (DataModel.objects heap (DataModel.fields self))]>
  (<[py "decorators" := VTexts (DataModel.decorators self)]>
  (<[py "base_class" := VText (DataModel.base_class self)]> ∅))).

(** [TemplateBase._render]: [self.template.render] on the arguments. The
    method takes [self] and any keyword arguments, so a keyword argument
    named [self] is given twice and the call raises [TypeError]. *)
Definition _render (jinja : Renderer) (template : pystr)
    (kwargs : gmap pystr template_value) : render_exn + pystr :=
  if bool_decide (is_Some (kwargs !! py "self")) then inl TypeError
  else
    match jinja template kwargs with
    | Some text => inr text
    | None => inl RenderError
    end.

(** Whether the template data has a key that is one of the names [render]
    passes itself. *)
Definition collides (extra : Dict) : bool :=
  existsb (fun k => bool_decide (is_Some (extra !! k))) reserved_keywords.

(** [DataModel.render]: the four named arguments, and the entries of
    [extra_template_data] spread as further keyword arguments; a key of
    the spread mapping that is also one of the named arguments makes the
    call itself raise [TypeError]. *)
Definition render (jinja : Renderer) (heap : store) (self : DataModel.t)
    : render_exn + pystr :=
  if collides (DataModel.extra_template_data self) then inl TypeError
  else
    _render jinja (DataModel._template self)
      (named heap self ∪ (VText <$> DataModel.extra_template_data self)).

(** [TemplateBase.__str__] *)
Definition __str__ (jinja : Renderer) (heap : store) (self : DataModel.t)
    : render_exn + pystr :=
  render jinja heap self.

End Render.

(** A renderer that writes the class name and the base class it is given. *)
Definition header_renderer : Renderer :=
  fun _ kwargs =>
    match kwargs !! py "class_name", kwargs !! py "base_class" with
    | Some (VText c), Some (VText b) => Some (py "class " ++ c ++ py "(" ++ b ++ py ")")
    | _, _ => None
    end.

(** *** Facts about the string operations *)

Lemma startswith_spec (s p : pystr) :
  Str.startswith s p = true <-> exists rest, s = p ++ rest.
Proof.
  revert s; induction p as [|c p IH]; intros s; simpl.
  - split; [intros _; by exists s | done].
  - destruct s as [|d s]; simpl.
    + split; [done | intros [rest H]; discriminate].
    + destruct (N.eqb_spec c d) as [->|Hne].
      * rewrite IH. split; intros [rest H]; exists rest; [by rewrite H | by inversion H].
      * split; [done | intros [rest H]; inversion H; congruence].
Qed.

Lemma startswith_app (p rest : pystr) : Str.startswith (p ++ rest) p = true.
Proof. apply startswith_spec. by exists rest. Qed.

Lemma contains_spec (s p : pystr) :
  Str.contains s p = true <-> exists a b, s = a ++ p ++ b.
Proof.
  induction s as [|c s IH]; simpl.
  - rewrite orb_false_r, startswith_spec. split.
    + intros [rest H]. by exists [], rest.
    + intros (a & b & H). destruct a; [by exists b | discriminate].
  - rewrite orb_true_iff, startswith_spec, IH. split.
    + intros [[rest H] | (a & b & H)].
      * by exists [], rest.
      * exists (c :: a), b. by rewrite H.
    + intros (a & b & H). destruct a as [|c' a]; simpl in H.
      * left. by exists b.
      * right. exists a, b. by inversion H.
Qed.

Lemma replace1_absent (s old new : pystr) :
  Str.contains s old = false -> Str.replace1 s old new = s.
Proof.
  induction s as [|c s IH]; simpl; intros H; apply orb_false_iff in H as [H1 H2];
    rewrite H1; [done | by rewrite IH].
Qed.

Lemma replace1_first (s old new : pystr) :
  Str.contains s old = true ->
  exists a b, first_occurrence s old a b /\ Str.replace1 s old new = a ++ new ++ b.
Proof.
  induction s as [|c s IH]; simpl.
  - rewrite orb_false_r. intros H. rewrite H.
    apply startswith_spec in H as [rest H].
    exists [], rest. split; [split; [done | intros; simpl; lia] |].
    destruct old; [|discriminate]. by simpl in *; subst.
  - destruct (Str.startswith (c :: s) old) eqn:Hsw; simpl.
    + intros _. apply startswith_spec in Hsw as [rest H].
      exists [], rest. split; [split; [done | intros; simpl; lia] |].
      rewrite H, drop_app_length. done.
    + intros H. destruct (IH H) as (a & b & [Hs Hmin] & Hr).
      exists (c :: a), b. split; [split |].
      * by rewrite Hs.
      * intros a' b' H'. destruct a' as [|c' a']; simpl in H'.
        -- assert (Str.startswith (c :: s) old = true) as Hc
             by (apply startswith_spec; by exists b').
           congruence.
        -- injection H' as _ H''. simpl. specialize (Hmin a' b' H''). lia.
      * by rewrite Hr.
Qed.

Lemma replace1_prefix (p rest new : pystr) :
  Str.replace1 (p ++ rest) p new = new ++ rest.
Proof.
  destruct p as [|c p]; simpl.
  - destruct rest; simpl; by rewrite ?drop_0.
  - rewrite N.eqb_refl, startswith_app. by rewrite drop_app_length.
Qed.

Lemma rsplit1_None (sep : N) (s : pystr) :
  Str.rsplit1 sep s = None <-> sep ∉ s.
Proof.
  induction s as [|c s IH]; simpl.
  - split; [intros _; apply not_elem_of_nil | done].
  - rewrite not_elem_of_cons. destruct (Str.rsplit1 sep s) as [[a b]|].
    + split; [done | intros [_ H]; by apply IH in H].
    + destruct (N.eqb_spec c sep) as [->|Hne].
      * split; [done | by intros [H _]].
      * split; [intros _; split; [congruence | by apply IH] | done].
Qed.

Lemma rsplit1_Some (sep : N) (s a b : pystr) :
  Str.rsplit1 sep s = Some (a, b) -> s = a ++ sep :: b /\ sep ∉ b.
Proof.
  revert a b; induction s as [|c s IH]; intros a b; simpl; [done |].
  destruct (Str.rsplit1 sep s) as [[a0 b0]|] eqn:Hr.
  - intros [= <- <-]. destruct (IH a0 b0 eq_refl) as [-> Hb]. done.
  - destruct (N.eqb_spec c sep) as [->|Hne]; [|done].
    intros [= <- <-]. split; [done | by apply rsplit1_None].
Qed.

Lemma rsplit1_is_Some (sep : N) (s : pystr) :
  sep ∈ s -> is_Some (Str.rsplit1 sep s).
Proof.
  intros H. destruct (Str.rsplit1 sep s) eqn:Hr; [done |].
  by apply rsplit1_None in Hr.
Qed.

Lemma rsplit1_last_separator (sep : N) (a b : pystr) :
  sep ∉ b -> Str.rsplit1 sep (a ++ sep :: b) = Some (a, b).
Proof.
  intros Hb. induction a as [|c a IH]; simpl.
  - apply rsplit1_None in Hb. by rewrite Hb, N.eqb_refl.
  - by rewrite IH.
Qed.

Lemma join_two_nonempty (sep p q : pystr) (rest : list pystr) :
  sep <> [] -> Str.join sep (p :: q :: rest) <> [].
Proof.
  intros Hsep H. change (p ++ sep ++ Str.join sep (q :: rest) = []) in H.
  apply app_eq_nil in H as [_ H]. apply app_eq_nil in H as [H _]. done.
Qed.

(** ** The composition of type hints *)

Import DataModelField (name, default, required, alias, example, description,
  data_types, is_list, is_union, imports, type_hint, unresolved_types).

(** The composer, in closed form: a field's state changes in [imports]
    only, by the implied imports appended, and the hint returned is the
    reference taken at the atoms that carry text. *)
Lemma get_type_hint_closed_form (self : DataModelField.t) :
  DataModelField._get_type_hint self
  = (DataModelField.set_imports self
       (imports self ++
        implied_imports (atom_hints self) (is_list self) (is_union self) (required self)),
     Some (Spec.composed_type_hint (effective_atoms (atom_hints self))
             (is_list self) (is_union self) (required self))).
Proof.
  destruct self as [n d r al ex de dts l u im th ur].
  destruct dts as [|[[|c h] i1 u1] [|d2 dts]]; destruct l, u, r;
    cbv -[app]; cbn [app]; rewrite <- ?app_assoc; cbn [app];
    rewrite ?app_nil_r; reflexivity.
Qed.

Lemma absorb_closed_form (self : DataModelField.t) (d : DataType.t) :
  DataModelField.absorb self d
  = DataModelField.mk (name self) (default self) (required self) (alias self)
      (example self) (description self) (data_types self) (is_list self)
      (is_union self) (imports self ++ or_nil (DataType.imports_ d))
      (type_hint self) (unresolved_types self ++ DataType.unresolved_types d).
Proof.
  destruct self, d as [h [[|i l]|] u]; unfold DataModelField.absorb; simpl;
    rewrite ?app_nil_r; reflexivity.
Qed.

Lemma absorb_fold_closed_form (dts : list DataType.t) (self : DataModelField.t) :
  foldl DataModelField.absorb self dts
  = DataModelField.mk (name self) (default self) (required self) (alias self)
      (example self) (description self) (data_types self) (is_list self)
      (is_union self)
      (imports self ++ concat ((fun d => or_nil (DataType.imports_ d)) <$> dts))
      (type_hint self)
      (unresolved_types self ++ concat (DataType.unresolved_types <$> dts)).
Proof.
  revert self; induction dts as [|d dts IH]; intros self; simpl.
  - destruct self; simpl. by rewrite !app_nil_r.
  - rewrite IH, absorb_closed_form; simpl. by rewrite <- !app_assoc.
Qed.

(** The constructor, in closed form: it raises exactly on a name given
    as [None], and returns the field of the closed form otherwise. *)
Lemma init_closed_form (wide_word : N -> bool) (values : DataModelField.kwargs) :
  DataModelField.__init__ wide_word values
  = match DataModelField.kw_name values with
    | Some None => inl ValidationError
    | _ => inr (field_closed_form wide_word values (alias_after values))
    end.
Proof.
  unfold DataModelField.__init__, field_closed_form.
  destruct values as [[[raw|]|] d rq al ex de dts li un im th ur];
    cbn [DataModelField.validated_name DataModelField.kw_name]; [| done |].
  all: rewrite absorb_fold_closed_form, get_type_hint_closed_form.
  all: unfold alias_after, atom_hints.
  all: destruct al as [al|]; simpl;
    try destruct (Str.truthy al); simpl; unfold DataModelField.set_type_hint,
    DataModelField.set_imports; simpl; rewrite <- ?app_assoc; reflexivity.
Qed.

Lemma init_returns_closed_form (wide_word : N -> bool)
    (values : DataModelField.kwargs) (self : DataModelField.t) :
  DataModelField.__init__ wide_word values = inr self ->
  self = field_closed_form wide_word values (alias_after values).
Proof.
  rewrite init_closed_form.
  destruct (DataModelField.kw_name values) as [[raw|]|]; congruence.
Qed.

(** The concrete fields are what the constructor returns. *)
Lemma concrete_fields_constructed :
  DataModelField.__init__ no_wide_word owner_kwargs = inr widget_owner
  /\ DataModelField.__init__ no_wide_word parts_kwargs = inr widget_parts
  /\ DataModelField.__init__ no_wide_word span_kwargs = inr two_dates.
Proof. split; [| split]; reflexivity. Qed.

(** Scenarios of the specification, run on the code. *)
Example optional_union_of_two :
  DataModelField._get_type_hint (bare_field [py "str"; py "int"] false false false)
  = (DataModelField.set_imports (bare_field [py "str"; py "int"] false false false)
       [IMPORT_UNION; IMPORT_OPTIONAL],
     Some (py "Optional[Union[str, int]]")).
Proof. reflexivity. Qed.

Example required_list_of_int :
  DataModelField._get_type_hint (bare_field [py "int"] true false true)
  = (DataModelField.set_imports (bare_field [py "int"] true false true) [IMPORT_LIST],
     Some (py "List[int]")).
Proof. reflexivity. Qed.

Example required_list_of_union :
  snd (DataModelField._get_type_hint (bare_field [py "A"; py "B"] true true true))
  = Some (py "List[Union[A, B]]").
Proof. reflexivity. Qed.

Example repeated_without_union_flag :
  snd (DataModelField._get_type_hint (bare_field [py "A"; py "B"] true false true))
  = Some (py "List[A, B]").
Proof. reflexivity. Qed.

Lemma implied_imports_optional (atoms : list pystr) (l u r : bool) :
  IMPORT_OPTIONAL ∈ implied_imports atoms l u r <-> r = false.
Proof.
  unfold implied_imports.
  rewrite !elem_of_app. split.
  - intros [H | [H | H]].
    + destruct l; [apply list_elem_of_singleton in H; discriminate | by apply elem_of_nil in H].
    + destruct atoms as [|? [|? ?]], l, u; try (by apply elem_of_nil in H);
        apply list_elem_of_singleton in H; discriminate.
    + destruct r; [by apply elem_of_nil in H | done].
  - intros ->. right; right. by apply list_elem_of_singleton.
Qed.

(** C1, as stated, fails on a repeated field whose only atom has the empty
    string as its hint: the code returns [List], the reference of the
    claim gives [List[]]. *)
Lemma single_empty_atom_is_bare_list :
  snd (DataModelField._get_type_hint (bare_field [py ""] true false true))
    = Some (py "List")
  /\ Spec.composed_type_hint (atom_hints (bare_field [py ""] true false true))
       true false true = py "List[]"
  /\ py "List" <> py "List[]".
Proof. split; [reflexivity | split; [reflexivity | discriminate]]. Qed.

(** C1 (amended): for every field, the composer returns the hint of the
    section-4.1 reference taken at the atoms that carry text (one atom
    with an empty hint counts as no atom), and changes the field only by
    appending the implied imports, among them the Optional import exactly
    when the field is not required; the hint stored by the constructor is
    that hint. *)
Theorem type_hint_refines_reference :
  (forall self : DataModelField.t,
     let added := implied_imports (atom_hints self) (is_list self)
                    (is_union self) (required self) in
     DataModelField._get_type_hint self
     = (DataModelField.set_imports self (imports self ++ added),
        Some (Spec.composed_type_hint (effective_atoms (atom_hints self))
                (is_list self) (is_union self) (required self)))
     /\ (IMPORT_OPTIONAL ∈ added <-> required self = false))
  /\ (forall (wide_word : N -> bool) (values : DataModelField.kwargs)
             (self : DataModelField.t),
        DataModelField.__init__ wide_word values = inr self ->
        type_hint self
        = Some (Spec.composed_type_hint (effective_atoms (atom_hints self))
                  (is_list self) (is_union self) (required self))).
Proof.
  split.
  - intros self added. split.
    + apply get_type_hint_closed_form.
    + apply implied_imports_optional.
  - intros wide_word values self H.
    apply init_returns_closed_form in H as ->. reflexivity.
Qed.

(** The atoms carry no text exactly when the test [if not type_hint] of
    the code succeeds; otherwise they are the atoms as given. *)
Lemma effective_atoms_joined (atoms : list pystr) :
  (Str.join (py ", ") atoms = [] <-> effective_atoms atoms = [])
  /\ (atoms <> [[]] -> effective_atoms atoms = atoms).
Proof.
  split.
  - destruct atoms as [|h [|q rest]]; [done | |].
    + destruct h; simpl; split; congruence.
    + split; [intros H; by apply join_two_nonempty in H | by destruct h].
  - destruct atoms as [|[|c h] [|q rest]]; simpl; congruence.
Qed.

(** Away from the single empty atom the reference holds as the claim
    words it. *)
Lemma type_hint_reference_unless_single_empty (self : DataModelField.t) :
  atom_hints self <> [[]] ->
  snd (DataModelField._get_type_hint self)
  = Some (Spec.composed_type_hint (atom_hints self)
            (is_list self) (is_union self) (required self)).
Proof.
  intros H. rewrite get_type_hint_closed_form. simpl.
  by rewrite (proj2 (effective_atoms_joined _) H).
Qed.

(** C2, as stated, fails: a second call on the same field returns the same
    hint but leaves a longer [imports], and already the first call changes
    the field. *)
Lemma second_call_appends_again :
  let self := bare_field [] false false false in
  let first := DataModelField._get_type_hint self in
  let second := DataModelField._get_type_hint (fst first) in
  (snd first, imports (fst first)) = (Some (py "Optional"), [IMPORT_OPTIONAL])
  /\ (snd second, imports (fst second))
     = (Some (py "Optional"), [IMPORT_OPTIONAL; IMPORT_OPTIONAL])
  /\ fst first <> self.
Proof. split; [reflexivity | split; [reflexivity | discriminate]]. Qed.

(** C2 (amended): the hint and the implied imports are a function of
    (atoms, repeated, union flag, required): two fields that agree on
    these get the same hint and the same imports appended, a second call
    on the same field returns the same hint again; the one change a call
    makes to the field is that it appends the implied imports to
    [imports], so a second call appends them once more. *)
Theorem get_type_hint_deterministic (self other : DataModelField.t) :
  atom_hints self = atom_hints other ->
  is_list self = is_list other ->
  is_union self = is_union other ->
  required self = required other ->
  exists (hint : pystr) (added : list Import),
    DataModelField._get_type_hint self
      = (DataModelField.set_imports self (imports self ++ added), Some hint)
    /\ DataModelField._get_type_hint other
      = (DataModelField.set_imports other (imports other ++ added), Some hint)
    /\ DataModelField._get_type_hint
         (DataModelField.set_imports self (imports self ++ added))
      = (DataModelField.set_imports self (imports self ++ added ++ added), Some hint).
Proof.
  intros Ha Hl Hu Hr.
  exists (Spec.composed_type_hint (effective_atoms (atom_hints self))
            (is_list self) (is_union self) (required self)),
         (implied_imports (atom_hints self) (is_list self) (is_union self)
            (required self)).
  split; [apply get_type_hint_closed_form |].
  split; [rewrite Ha, Hl, Hu, Hr; apply get_type_hint_closed_form |].
  rewrite get_type_hint_closed_form. destruct self; simpl.
  unfold DataModelField.set_imports, atom_hints; simpl. by rewrite <- app_assoc.
Qed.

Lemma get_type_hint_deterministic_witness :
  exists (hint : pystr) (added : list Import),
    DataModelField._get_type_hint (bare_field [py "str"; py "int"] false false false)
      = (DataModelField.set_imports (bare_field [py "str"; py "int"] false false false)
           ([] ++ added), Some hint)
    /\ DataModelField._get_type_hint
         (DataModelField.mk (Some (py "x")) None false None None None
            [DataType.mk (py "str") None [py "Later"]; DataType.mk (py "int") None []]
            false false [IMPORT_LIST] None [])
      = (DataModelField.set_imports
           (DataModelField.mk (Some (py "x")) None false None None None
              [DataType.mk (py "str") None [py "Later"]; DataType.mk (py "int") None []]
              false false [IMPORT_LIST] None [])
           ([IMPORT_LIST] ++ added), Some hint)
    /\ DataModelField._get_type_hint
         (DataModelField.set_imports (bare_field [py "str"; py "int"] false false false)
            ([] ++ added))
      = (DataModelField.set_imports (bare_field [py "str"; py "int"] false false false)
           ([] ++ added ++ added), Some hint).
Proof.
  exact (get_type_hint_deterministic
           (bare_field [py "str"; py "int"] false false false)
           (DataModelField.mk (Some (py "x")) None false None None None
              [DataType.mk (py "str") None [py "Later"]; DataType.mk (py "int") None []]
              false false [IMPORT_LIST] None [])
           eq_refl eq_refl eq_refl eq_refl).
Defined.

(** ** Names and aliases *)

Lemma ascii_word_underscore : ascii_word UNDERSCORE = true.
Proof. reflexivity. Qed.

Lemma is_word_ascii (wide_word : N -> bool) (c : N) :
  (c < 128)%N -> is_word wide_word c = ascii_word c.
Proof. intros H. unfold is_word. by apply N.ltb_lt in H as ->. Qed.

(** A Latin-1 letter is a word character whatever the rest of the Unicode
    database says, so the validator keeps it. *)
Lemma validate_name_keeps_e_acute (wide_word : N -> bool) :
  DataModelField.validate_name wide_word [233%N] = [233%N].
Proof. reflexivity. Qed.

(** C3, as stated, fails on a name with a letter outside ASCII: U+00E9 is
    a word character for [\W], it is kept, and the stored name does not
    match [^[A-Za-z0-9_]*$]. *)
Lemma non_ascii_letter_is_kept :
  DataModelField.validate_name no_wide_word [233%N] = [233%N]
  /\ Spec.identifier_text (DataModelField.validate_name no_wide_word [233%N]) = false.
Proof. split; reflexivity. Qed.

(** C3 (amended): for every input string the sanitized name has the
    length of the input; each character that is not a Unicode word
    character is replaced with an underscore and every other character is
    kept; for an input of ASCII characters the result matches
    [^[A-Za-z0-9_]*$]. *)
Theorem validate_name_replaces_non_word (wide_word : N -> bool) (raw : pystr) :
  length (DataModelField.validate_name wide_word raw) = length raw
  /\ (forall (i : nat) (c : N),
        raw !! i = Some c ->
        DataModelField.validate_name wide_word raw !! i
        = Some (if is_word wide_word c then c else UNDERSCORE))
  /\ (Forall (fun c => (c < 128)%N) raw ->
      Spec.identifier_text (DataModelField.validate_name wide_word raw) = true).
Proof.
  unfold DataModelField.validate_name. split; [apply length_fmap |]. split.
  - intros i c H. by rewrite list_lookup_fmap, H.
  - unfold Spec.identifier_text.
    induction 1 as [|c raw Hc _ IH]; [done |].
    rewrite fmap_cons. cbn [forallb]. apply andb_true_intro. split; [| exact IH].
    rewrite (is_word_ascii _ _ Hc).
    destruct (ascii_word c) eqn:Hw; [done | apply ascii_word_underscore].
Qed.

Lemma validate_name_replaces_non_word_witness :
  Forall (fun c => (c < 128)%N) (py "a-b.c d")
  /\ DataModelField.validate_name no_wide_word (py "a-b.c d") = py "a_b_c_d"
  /\ Spec.identifier_text (DataModelField.validate_name no_wide_word (py "a-b.c d")) = true.
Proof.
  assert (Forall (fun c => (c < 128)%N) (py "a-b.c d")) as H
    by (repeat constructor).
  split; [exact H |]. split; [reflexivity |].
  exact (proj2 (proj2 (validate_name_replaces_non_word no_wide_word (py "a-b.c d"))) H).
Defined.

(** C6: a field constructed with a name and no alias has the name as it
    was given for its alias, whatever the validator made of the stored
    name; an alias that is given is stored as it is. *)
Theorem alias_defaults_to_raw_name (wide_word : N -> bool) :
  (forall (values : DataModelField.kwargs) (raw : pystr),
     DataModelField.kw_name values = Some (Some raw) ->
     DataModelField.kw_alias values = None ->
     exists self,
       DataModelField.__init__ wide_word values = inr self
       /\ alias self = Some raw
       /\ name self = Some (DataModelField.validate_name wide_word raw))
  /\ (forall (values : DataModelField.kwargs) (given : pystr) (self : DataModelField.t),
        DataModelField.__init__ wide_word values = inr self ->
        DataModelField.kw_alias values = Some given ->
        given <> [] ->
        alias self = Some given).
Proof.
  split.
  - intros values raw Hn Ha. eexists. rewrite init_closed_form, Hn.
    split; [reflexivity |]. simpl. unfold alias_after. by rewrite Hn, Ha.
  - intros values given self H Ha Hg. apply init_returns_closed_form in H as ->.
    simpl. unfold alias_after. rewrite Ha. destruct given; [done |]. simpl.
    by destruct (DataModelField.kw_name values).
Qed.

Lemma alias_defaults_to_raw_name_witness :
  exists self,
    DataModelField.__init__ no_wide_word (named_kwargs (py "a-b") [] true) = inr self
    /\ alias self = Some (py "a-b")
    /\ name self = Some (py "a_b").
Proof.
  exact (proj1 (alias_defaults_to_raw_name no_wide_word)
           (named_kwargs (py "a-b") [] true) (py "a-b") eq_refl eq_refl).
Defined.

(** ** Further properties of field construction *)

(** X1: the unresolved names of a constructed field are the names it was
    given followed by those of its atoms, atom by atom in the order of
    the atoms; nothing is dropped, reordered or deduplicated. *)
Theorem unresolved_types_accumulated (wide_word : N -> bool)
    (values : DataModelField.kwargs) (self : DataModelField.t) :
  DataModelField.__init__ wide_word values = inr self ->
  unresolved_types self
  = DataModelField.kw_unresolved_types values
    ++ concat (DataType.unresolved_types <$> DataModelField.kw_data_types values).
Proof. intros H. by apply init_returns_closed_form in H as ->. Qed.

Lemma unresolved_types_accumulated_witness :
  exists self,
    DataModelField.__init__ no_wide_word
      (DataModelField.mk_kwargs (Some (Some (py "owner"))) None true None None None
         [DataType.mk (py "Later") None [py "Later"];
          DataType.mk (py "Other") None [py "Other"; py "Later"]]
         false false [] None [py "Given"])
    = inr self
    /\ unresolved_types self = [py "Given"; py "Later"; py "Other"; py "Later"].
Proof.
  eexists. split; [reflexivity |].
  exact (unresolved_types_accumulated no_wide_word
           (DataModelField.mk_kwargs (Some (Some (py "owner"))) None true None None None
              [DataType.mk (py "Later") None [py "Later"];
               DataType.mk (py "Other") None [py "Other"; py "Later"]]
              false false [] None [py "Given"]) _ eq_refl).
Defined.

(** X2: a [type_hint] passed to the constructor is never kept: the field
    constructed is the same whatever hint the caller passes, and its hint
    is never [None]. *)
Theorem given_type_hint_is_overwritten (wide_word : N -> bool)
    (values : DataModelField.kwargs) (h : option pystr) :
  DataModelField.__init__ wide_word (with_type_hint values h)
  = DataModelField.__init__ wide_word values
  /\ (forall self, DataModelField.__init__ wide_word values = inr self ->
                   type_hint self <> None).
Proof.
  split.
  - rewrite !init_closed_form. by destruct values.
  - intros self H. by apply init_returns_closed_form in H as ->.
Qed.

(** X3: the edge cases of the alias default. For a name given as a
    string, an alias that is missing or the empty string is replaced by
    the raw name. When the [name] key is absent the field is built with
    no name and the alias exactly as given, even if empty. A name given
    as [None] builds no field: the validator raises and the constructor
    ends in a [ValidationError]; in every other case the constructor
    returns a field. *)
Theorem alias_edge_cases (wide_word : N -> bool) (values : DataModelField.kwargs) :
  (forall raw : pystr,
     DataModelField.kw_name values = Some (Some raw) ->
     DataModelField.kw_alias values = Some [] \/ DataModelField.kw_alias values = None ->
     exists self,
       DataModelField.__init__ wide_word values = inr self /\ alias self = Some raw)
  /\ (DataModelField.kw_name values = None ->
      exists self,
        DataModelField.__init__ wide_word values = inr self
        /\ alias self = DataModelField.kw_alias values
        /\ name self = None)
  /\ (DataModelField.kw_name values = Some None ->
      DataModelField.__init__ wide_word values = inl ValidationError)
  /\ ((exists self, DataModelField.__init__ wide_word values = inr self)
      <-> DataModelField.kw_name values <> Some None).
Proof.
  rewrite init_closed_form. unfold field_closed_form, alias_after.
  split; [| split; [| split]].
  - intros raw -> [-> | ->]; by eexists.
  - intros ->. by eexists.
  - by intros ->.
  - destruct (DataModelField.kw_name values) as [[raw|]|]; split.
    + done.
    + intros _. by eexists.
    + by intros [self H].
    + done.
    + done.
    + intros _. by eexists.
Qed.

Lemma alias_edge_cases_witness :
  (exists self,
     DataModelField.__init__ no_wide_word
       (DataModelField.mk_kwargs (Some (Some (py "a-b"))) None true (Some (py ""))
          None None [] false false [] None []) = inr self
     /\ alias self = Some (py "a-b"))
  /\ (exists self,
        DataModelField.__init__ no_wide_word
          (DataModelField.mk_kwargs None None true (Some (py "")) None None []
             false false [] None []) = inr self
        /\ alias self = Some (py "")
        /\ name self = None)
  /\ DataModelField.__init__ no_wide_word
       (DataModelField.mk_kwargs (Some None) None true None None None []
          false false [] None []) = inl ValidationError.
Proof.
  split; [| split].
  - exact (proj1 (alias_edge_cases no_wide_word
                    (DataModelField.mk_kwargs (Some (Some (py "a-b"))) None true
                       (Some (py "")) None None [] false false [] None []))
             (py "a-b") eq_refl (or_introl eq_refl)).
  - exact (proj1 (proj2 (alias_edge_cases no_wide_word
                    (DataModelField.mk_kwargs None None true (Some (py "")) None None []
                       false false [] None []))) eq_refl).
  - exact (proj1 (proj2 (proj2 (alias_edge_cases no_wide_word
                    (DataModelField.mk_kwargs (Some None) None true None None None []
                       false false [] None [])))) eq_refl).
Defined.

(** *** The sanitizer *)

Lemma is_word_underscore (wide_word : N -> bool) : is_word wide_word UNDERSCORE = true.
Proof. reflexivity. Qed.

(** X4: sanitizing is idempotent, and a name is left as it is exactly when
    all of its characters are word characters. *)
Theorem validate_name_idempotent (wide_word : N -> bool) (raw : pystr) :
  DataModelField.validate_name wide_word (DataModelField.validate_name wide_word raw)
  = DataModelField.validate_name wide_word raw
  /\ (DataModelField.validate_name wide_word raw = raw
      <-> Forall (fun c => is_word wide_word c = true) raw).
Proof.
  unfold DataModelField.validate_name. split.
  - induction raw as [|c raw IH]; [done |]. rewrite !fmap_cons. f_equal; [| exact IH].
    destruct (is_word wide_word c) eqn:Hc; [by rewrite Hc |].
    by rewrite is_word_underscore.
  - induction raw as [|c raw IH]; [split; [constructor | done] |].
    rewrite fmap_cons, Forall_cons. split.
    + intros [= Hc Hraw]. split; [| by apply IH].
      destruct (is_word wide_word c) eqn:Hw; [done |].
      rewrite <- Hc, is_word_underscore in Hw. done.
    + intros [Hc Hraw]. rewrite Hc. f_equal. by apply IH.
Qed.

(** *** The imports of the composer *)

Lemma contains_startswith (s p : pystr) :
  Str.startswith s p = true -> Str.contains s p = true.
Proof. intros H. destruct s; simpl; by rewrite H. Qed.

Lemma contains_inside (s p before after : pystr) :
  Str.contains s p = true -> Str.contains (before ++ s ++ after) p = true.
Proof.
  rewrite !contains_spec. intros (a & b & ->).
  exists (before ++ a), (b ++ after). by rewrite <- !app_assoc.
Qed.

Lemma contains_wrap (required : bool) (hint p : pystr) :
  Str.contains hint p = true -> Str.contains (Spec.wrap required hint) p = true.
Proof.
  intros H. unfold Spec.wrap. destruct required; [done |].
  destruct hint as [|c hint]; [by destruct p |].
  by apply contains_inside.
Qed.

(** X5: what the composer appends to [imports] is a sublist of
    [List, Union, Optional] in this order: at most three records, none of
    them twice, whatever the atoms and flags. *)
Theorem composer_imports_sublist (self : DataModelField.t) :
  exists added,
    imports (fst (DataModelField._get_type_hint self)) = imports self ++ added
    /\ added `sublist_of` [IMPORT_LIST; IMPORT_UNION; IMPORT_OPTIONAL].
Proof.
  rewrite get_type_hint_closed_form.
  exists (implied_imports (atom_hints self) (is_list self) (is_union self) (required self)).
  split; [by destruct self |].
  unfold implied_imports.
  destruct (atom_hints self) as [|? [|? ?]], (is_list self), (is_union self),
    (required self); simpl;
    repeat first [apply sublist_nil | apply sublist_skip | apply sublist_cons].
Qed.

Lemma elem_of_implied_imports (i : Import) (atoms : list pystr) (l u r : bool) :
  i ∈ implied_imports atoms l u r <->
  (i = IMPORT_LIST /\ l = true)
  \/ (i = IMPORT_UNION /\ 2 <= length atoms /\ (l = false \/ u = true))
  \/ (i = IMPORT_OPTIONAL /\ r = false).
Proof.
  unfold implied_imports. rewrite !elem_of_app.
  destruct atoms as [|? [|? ?]], l, u, r; simpl;
    rewrite ?list_elem_of_singleton, ?elem_of_nil; naive_solver lia.
Qed.

Lemma import_constants_differ :
  IMPORT_LIST <> IMPORT_UNION /\ IMPORT_LIST <> IMPORT_OPTIONAL
  /\ IMPORT_UNION <> IMPORT_OPTIONAL.
Proof. repeat split; discriminate. Qed.

Lemma pre_wrap_repeated_starts_with_list (atoms : list pystr) (u : bool) :
  Str.startswith (Spec.pre_wrap (effective_atoms atoms) true u) LIST = true.
Proof. destruct atoms as [|[|c h] [|q rest]], u; reflexivity. Qed.

Lemma pre_wrap_union_contains_union (atoms : list pystr) (l u : bool) :
  2 <= length atoms -> l = false \/ u = true ->
  Str.contains (Spec.pre_wrap (effective_atoms atoms) l u) (py "Union[") = true.
Proof.
  intros Hlen Hflag.
  destruct atoms as [|h [|q rest]]; simpl in Hlen; [lia | lia |].
  assert (effective_atoms (h :: q :: rest) = h :: q :: rest) as -> by (by destruct h).
  unfold Spec.pre_wrap.
  destruct l, u; try (destruct Hflag; discriminate).
  - apply contains_spec. by exists (py "List["), (Str.join (py ", ") (h :: q :: rest) ++ py "]]").
  - apply contains_spec. by exists [], (Str.join (py ", ") (h :: q :: rest) ++ py "]").
  - apply contains_spec. by exists [], (Str.join (py ", ") (h :: q :: rest) ++ py "]").
Qed.

(** X6: the composer imports what it writes and nothing else. It appends
    the List import exactly for a repeated field and the Union import
    exactly for a field with several atoms that is not repeated or is
    union-flagged; and each import it appends is used by the hint it
    returns: the hint then contains [List], contains [Union[], or starts
    with [Optional]. *)
Theorem composer_imports_are_used (self : DataModelField.t) :
  exists (added : list Import) (hint : pystr),
    DataModelField._get_type_hint self
    = (DataModelField.set_imports self (imports self ++ added), Some hint)
    /\ (IMPORT_LIST ∈ added <-> is_list self = true)
    /\ (IMPORT_UNION ∈ added <->
        2 <= length (data_types self) /\ (is_list self = false \/ is_union self = true))
    /\ (IMPORT_LIST ∈ added -> Str.contains hint LIST = true)
    /\ (IMPORT_UNION ∈ added -> Str.contains hint (py "Union[") = true)
    /\ (IMPORT_OPTIONAL ∈ added -> Str.startswith hint OPTIONAL = true).
Proof.
  destruct import_constants_differ as (Hlu & Hlo & Huo).
  eexists _, _. split; [apply get_type_hint_closed_form |].
  assert (length (atom_hints self) = length (data_types self)) as Hlen
    by apply length_fmap.
  rewrite !elem_of_implied_imports, Hlen.
  split; [naive_solver |]. split; [naive_solver |]. split; [| split].
  - intros [[_ Hl] | [[? _] | [? _]]]; [| done | done].
    rewrite Hl. apply contains_wrap, contains_startswith,
      pre_wrap_repeated_starts_with_list.
  - intros [[? _] | [[_ [Hn Hf]] | [? _]]]; [done | | done].
    apply contains_wrap, pre_wrap_union_contains_union; [lia | done].
  - intros [[? _] | [[? _] | [_ Hr]]]; [done | done |].
    rewrite Hr. unfold Spec.composed_type_hint, Spec.wrap.
    by destruct (Spec.pre_wrap _ _ _).
Qed.

(** X7: the union flag matters only for a repeated field with several
    atoms: for any other field the hint and the imports are the same
    whatever the flag. *)
Theorem union_flag_matters_only_for_repeated (self : DataModelField.t) (u : bool) :
  is_list self = false \/ length (data_types self) < 2 ->
  snd (DataModelField._get_type_hint (with_is_union self u))
  = snd (DataModelField._get_type_hint self)
  /\ imports (fst (DataModelField._get_type_hint (with_is_union self u)))
     = imports (fst (DataModelField._get_type_hint self)).
Proof.
  intros H. rewrite !get_type_hint_closed_form.
  destruct self as [n d r al ex de dts l u0 im th ur]; simpl in *.
  unfold atom_hints; simpl.
  destruct H as [-> | H].
  - unfold Spec.composed_type_hint, Spec.pre_wrap, implied_imports.
    by destruct (DataType.type_hint <$> dts) as [|[|??] [|??]].
  - destruct dts as [|d1 [|d2 dts]]; simpl in H; [| | lia].
    + done.
    + unfold Spec.composed_type_hint, Spec.pre_wrap, implied_imports; simpl.
      by destruct (DataType.type_hint d1), l.
Qed.

Lemma union_flag_matters_only_for_repeated_witness :
  snd (DataModelField._get_type_hint
         (with_is_union (bare_field [py "A"; py "B"] false false true) true))
  = snd (DataModelField._get_type_hint (bare_field [py "A"; py "B"] false false true))
  /\ imports (fst (DataModelField._get_type_hint
                     (with_is_union (bare_field [py "A"; py "B"] false false true) true)))
     = imports (fst (DataModelField._get_type_hint
                       (bare_field [py "A"; py "B"] false false true))).
Proof.
  exact (union_flag_matters_only_for_repeated
           (bare_field [py "A"; py "B"] false false true) true (or_introl eq_refl)).
Defined.

(** ** Model construction *)

Import DataModel (TEMPLATE_FILE_PATH, BASE_CLASS, a_name, a_fields, a_decorators,
  a_base_classes, a_custom_base_class, a_custom_template_dir,
  a_extra_template_data, a_imports, a_auto_import, a_reference_classes,
  out_store, out_extra_template_data, out_result, out_imports).

(** The constructor in one piece: the test of the template path, then
    every write, then the loading of the template. *)
Lemma init_unfold (env : Env) (self : DataModel.cls) (a : DataModel.args) (heap : store) :
  DataModel.__init__ env self a heap
  = if Str.truthy (TEMPLATE_FILE_PATH self) then
      let path :=
        DataModel.resolve_template env (TEMPLATE_FILE_PATH self)
          (a_custom_template_dir a) in
      DataModel.mk_outcome (snd (imports_state self a heap))
        (fst (DataModel.lookup_extra (a_extra_template_data a) (a_name a)))
        (match load_template env path with
         | None => inl (TemplateLoadError path)
         | Some template =>
             inr (DataModel.mk (a_name a) (a_fields a) (or_nil (a_decorators a))
                    (imports_after self a heap)
                    (match Str.rsplit1 DOT (a_name a) with
                     | Some (module, _) =>
                         DataModel.strip_base_class (module ++ [DOT])
                           (unstripped_base_class self a)
                     | None => unstripped_base_class self a
                     end)
                    (DataModel.given_base_classes (a_base_classes a))
                    (elements
                       (list_to_set
                          (DataModel.seed_reference_classes (BASE_CLASS self)
                             (DataModel.given_base_classes (a_base_classes a))
                             (a_reference_classes a))
                        ∪ DataModel.collect_unresolved
                            (DataModel.objects (hints_state self a heap) (a_fields a))))
                    (match Str.rsplit1 DOT (a_name a) with
                     | Some (_, class_name) => class_name
                     | None => a_name a
                     end)
                    (snd (DataModel.lookup_extra (a_extra_template_data a) (a_name a)))
                    path template)
         end)
        (DataModel.own_list_after (a_imports a) (imports_after self a heap))
    else
      DataModel.mk_outcome heap (a_extra_template_data a)
        (inl (Exception (py "TEMPLATE_FILE_PATH is undefined")))
        (DataModel.own_list (a_imports a)).
Proof.
  unfold DataModel.__init__, imports_after, imports_state, hints_state,
    appended_state, unstripped_base_class, store_after.
  destruct (Str.truthy (TEMPLATE_FILE_PATH self)); simpl; [|done].
  destruct (DataModel.resolve_base_class _ _ _ _) as [appended base_class]; simpl.
  destruct (DataModel.cell_extend _ _ _) as [cell heap']; simpl.
  destruct (Str.rsplit1 DOT (a_name a)) as [[module class_name]|]; simpl;
    destruct (DataModel.lookup_extra _ _) as [shared extra]; simpl;
    destruct (a_auto_import a); simpl;
    try destruct (DataModel.extend_imports _ _ _) as [cell' heap'']; simpl;
    destruct (load_template env _); reflexivity.
Qed.

Lemma init_inversion (env : Env) (self : DataModel.cls) (a : DataModel.args)
    (heap : store) (m : DataModel.t) :
  out_result (DataModel.__init__ env self a heap) = inr m ->
  Str.truthy (TEMPLATE_FILE_PATH self) = true
  /\ out_store (DataModel.__init__ env self a heap) = snd (imports_state self a heap)
  /\ DataModel.name m = a_name a
  /\ DataModel.fields m = a_fields a
  /\ DataModel.base_classes m = DataModel.given_base_classes (a_base_classes a)
  /\ DataModel.base_class m
     = match Str.rsplit1 DOT (a_name a) with
       | Some (module, _) =>
           DataModel.strip_base_class (module ++ [DOT]) (unstripped_base_class self a)
       | None => unstripped_base_class self a
       end
  /\ DataModel.class_name m
     = match Str.rsplit1 DOT (a_name a) with
       | Some (_, class_name) => class_name
       | None => a_name a
       end
  /\ DataModel.reference_classes m
     = elements
         (list_to_set
            (DataModel.seed_reference_classes (BASE_CLASS self)
               (DataModel.given_base_classes (a_base_classes a))
               (a_reference_classes a))
          ∪ DataModel.collect_unresolved
              (DataModel.objects (hints_state self a heap) (a_fields a)))
  /\ DataModel.imports m = imports_after self a heap.
Proof.
  rewrite init_unfold.
  destruct (Str.truthy (TEMPLATE_FILE_PATH self)); [|done]. cbv zeta.
  destruct (load_template env _); simpl; [|done]. by intros [= <-].
Qed.

(** The template test comes first: with no template path nothing else is
    looked at and nothing is written. *)
Lemma init_undefined (env : Env) (self : DataModel.cls) (a : DataModel.args) (heap : store) :
  TEMPLATE_FILE_PATH self = [] ->
  DataModel.__init__ env self a heap
  = DataModel.mk_outcome heap (a_extra_template_data a)
      (inl (Exception (py "TEMPLATE_FILE_PATH is undefined")))
      (DataModel.own_list (a_imports a)).
Proof. intros H. unfold DataModel.__init__. by rewrite H. Qed.

(** With a template path, the store is written whether the template then
    loads or not. *)
Lemma init_store (env : Env) (self : DataModel.cls) (a : DataModel.args) (heap : store) :
  out_store (DataModel.__init__ env self a heap)
  = if Str.truthy (TEMPLATE_FILE_PATH self) then snd (imports_state self a heap)
    else heap.
Proof. rewrite init_unfold. by destruct (Str.truthy (TEMPLATE_FILE_PATH self)). Qed.

(** Construction returns a model whenever the class has a template path
    and the template loads. *)
Lemma init_returns (env : Env) (self : DataModel.cls) (a : DataModel.args)
    (heap : store) (template : pystr) :
  TEMPLATE_FILE_PATH self <> [] ->
  load_template env
    (DataModel.resolve_template env (TEMPLATE_FILE_PATH self) (a_custom_template_dir a))
    = Some template ->
  exists m, out_result (DataModel.__init__ env self a heap) = inr m.
Proof.
  intros Ht Hl. rewrite init_unfold.
  destruct (TEMPLATE_FILE_PATH self) as [|c p] eqn:Hp; [done |]. cbv zeta.
  rewrite Hl. simpl. eauto.
Qed.

(** *** The loop over the hints *)

(** The loop body writes [type_hint] and nothing else. *)
Lemma strip_type_hint_frame (prefix : pystr) (f : DataModelField.t) :
  DataModel.strip_type_hint prefix f
  = DataModelField.set_type_hint f (type_hint (DataModel.strip_type_hint prefix f)).
Proof.
  unfold DataModel.strip_type_hint. destruct f as [? ? ? ? ? ? ? ? ? ? [h|] ?]; simpl; [|done].
  by destruct (Str.contains h prefix).
Qed.

Lemma iter_strip_frame (prefix : pystr) (n : nat) (f : DataModelField.t) :
  Nat.iter n (DataModel.strip_type_hint prefix) f
  = DataModelField.set_type_hint f
      (type_hint (Nat.iter n (DataModel.strip_type_hint prefix) f)).
Proof.
  induction n as [|n IH]; simpl.
  - by destruct f.
  - rewrite strip_type_hint_frame. rewrite IH at 1. by destruct f.
Qed.

(** The loop body does not look at [imports]. *)
Lemma strip_type_hint_set_imports (prefix : pystr) (f : DataModelField.t)
    (l : list Import) :
  DataModel.strip_type_hint prefix (DataModelField.set_imports f l)
  = DataModelField.set_imports (DataModel.strip_type_hint prefix f) l.
Proof.
  unfold DataModel.strip_type_hint. destruct f as [? ? ? ? ? ? ? ? ? ? [h|] ?]; simpl; [|done].
  by destruct (Str.contains h prefix).
Qed.

Lemma iter_strip_set_imports (prefix : pystr) (n : nat) (f : DataModelField.t)
    (l : list Import) :
  Nat.iter n (DataModel.strip_type_hint prefix) (DataModelField.set_imports f l)
  = DataModelField.set_imports (Nat.iter n (DataModel.strip_type_hint prefix) f) l.
Proof.
  induction n as [|n IH]; simpl; [done |].
  by rewrite IH, strip_type_hint_set_imports.
Qed.

(** A field object is rewritten once for each time the list names it. *)
Lemma strip_fields_lookup (prefix : pystr) (fields : list loc) (heap : store) (r : loc) :
  DataModel.strip_fields prefix heap fields !! r
  = Nat.iter (count_occ Nat.eq_dec fields r) (DataModel.strip_type_hint prefix)
      <$> heap !! r.
Proof.
  unfold DataModel.strip_fields.
  revert heap; induction fields as [|x fields IH]; intros heap.
  - simpl. by destruct (heap !! r).
  - cbn [foldl]. rewrite IH, lookup_alter. cbn [count_occ].
    destruct (Nat.eq_dec x r) as [->|Hne].
    + rewrite decide_True by done. destruct (heap !! r) as [f|]; [|done].
      change (Some (Nat.iter (count_occ Nat.eq_dec fields r)
                      (DataModel.strip_type_hint prefix)
                      (DataModel.strip_type_hint prefix f))
              = Some (Nat.iter (S (count_occ Nat.eq_dec fields r))
                        (DataModel.strip_type_hint prefix) f)).
      by rewrite Nat.iter_succ_r.
    + by rewrite decide_False.
Qed.

Lemma store_after_lookup (a : DataModel.args) (heap : store) (r : loc) :
  store_after a heap !! r = hint_rewrite a r <$> heap !! r.
Proof.
  unfold store_after, hint_rewrite.
  destruct (Str.rsplit1 DOT (a_name a)) as [[module class_name]|].
  - apply strip_fields_lookup.
  - by destruct (heap !! r).
Qed.

Lemma hint_rewrite_frame (a : DataModel.args) (r : loc) (f : DataModelField.t) :
  hint_rewrite a r f
  = DataModelField.set_type_hint f (type_hint (hint_rewrite a r f)).
Proof.
  unfold hint_rewrite.
  destruct (Str.rsplit1 DOT (a_name a)) as [[module class_name]|].
  - apply iter_strip_frame.
  - by destruct f.
Qed.

Lemma hint_rewrite_set_imports (a : DataModel.args) (r : loc) (f : DataModelField.t)
    (l : list Import) :
  hint_rewrite a r (DataModelField.set_imports f l)
  = DataModelField.set_imports (hint_rewrite a r f) l.
Proof.
  unfold hint_rewrite.
  destruct (Str.rsplit1 DOT (a_name a)) as [[module class_name]|]; [|done].
  apply iter_strip_set_imports.
Qed.

Lemma hint_rewrite_imports (a : DataModel.args) (r : loc) (f : DataModelField.t) :
  imports (hint_rewrite a r f) = imports f.
Proof. rewrite hint_rewrite_frame. by destruct f. Qed.

Lemma hint_rewrite_unlisted (a : DataModel.args) (r : loc) (f : DataModelField.t) :
  r ∉ a_fields a \/ DOT ∉ a_name a -> hint_rewrite a r f = f.
Proof.
  unfold hint_rewrite.
  destruct (Str.rsplit1 DOT (a_name a)) as [[module class_name]|] eqn:Hs; [|done].
  intros [Hr | Hn].
  - assert (count_occ Nat.eq_dec (a_fields a) r = 0) as ->; [|done].
    apply count_occ_not_In. by rewrite <- list_elem_of_In.
  - apply rsplit1_None in Hn. congruence.
Qed.

Lemma hint_rewrite_dotted (a : DataModel.args) (r : loc) (f : DataModelField.t)
    (module class_name : pystr) :
  a_name a = module ++ DOT :: class_name ->
  DOT ∉ class_name ->
  hint_rewrite a r f
  = Nat.iter (count_occ Nat.eq_dec (a_fields a) r)
      (DataModel.strip_type_hint (module ++ [DOT])) f.
Proof.
  intros Hname Hdot. unfold hint_rewrite.
  by rewrite Hname, (rsplit1_last_separator DOT module class_name Hdot).
Qed.

Lemma alter_lookup_insert (g : DataModelField.t -> DataModelField.t) (heap : store)
    (r : loc) (f : DataModelField.t) :
  heap !! r = Some f -> alter g r heap = <[r := g f]> heap.
Proof.
  intros Hf. apply map_eq. intros x. rewrite lookup_alter.
  destruct (decide (r = x)) as [<-|Hne].
  - by rewrite lookup_insert_eq, Hf.
  - by rewrite lookup_insert_ne.
Qed.

Lemma store_after_insert (a : DataModel.args) (heap : store) (r : loc)
    (f : DataModelField.t) :
  store_after a (<[r := f]> heap) = <[r := hint_rewrite a r f]> (store_after a heap).
Proof.
  apply map_eq. intros x. rewrite store_after_lookup.
  destruct (decide (r = x)) as [<-|Hne].
  - by rewrite !lookup_insert_eq.
  - by rewrite !lookup_insert_ne, store_after_lookup.
Qed.

(** *** The objects a list names *)

Lemma elem_of_objects (heap : store) (fields : list loc) (f : DataModelField.t) :
  f ∈ DataModel.objects heap fields <-> exists r, r ∈ fields /\ heap !! r = Some f.
Proof. unfold DataModel.objects. apply list_elem_of_omap. Qed.

(** What two stores agree on at every object, the objects named by a
    list agree on. *)
Lemma objects_frame {A} (g : DataModelField.t -> A) (heap heap' : store)
    (l : list loc) :
  (forall x, g <$> heap' !! x = g <$> heap !! x) ->
  g <$> DataModel.objects heap' l = g <$> DataModel.objects heap l.
Proof.
  intros H. unfold DataModel.objects.
  induction l as [|x l IH]; [done |]. cbn [omap list_omap].
  specialize (H x).
  destruct (heap' !! x) as [f'|], (heap !! x) as [f|]; simpl in H; try done.
  injection H as H. rewrite !fmap_cons. by rewrite H, IH.
Qed.

Lemma objects_store_after {A} (g : DataModelField.t -> A) (a : DataModel.args)
    (heap : store) (l : list loc) :
  (forall f h, g (DataModelField.set_type_hint f h) = g f) ->
  g <$> DataModel.objects (store_after a heap) l = g <$> DataModel.objects heap l.
Proof.
  intros Hg. apply objects_frame. intros x. rewrite store_after_lookup.
  destruct (heap !! x) as [f|]; simpl; [|done].
  by rewrite hint_rewrite_frame, Hg.
Qed.

Lemma elem_of_concat {A} (x : A) (ls : list (list A)) :
  x ∈ concat ls <-> exists l, l ∈ ls /\ x ∈ l.
Proof.
  rewrite list_elem_of_In, in_concat. split; intros (l & H1 & H2); exists l;
    by rewrite ?list_elem_of_In in *.
Qed.

Lemma collect_unresolved_concat (objs : list DataModelField.t) :
  DataModel.collect_unresolved objs = list_to_set (concat (unresolved_types <$> objs)).
Proof.
  unfold DataModel.collect_unresolved.
  assert (forall acc : gset pystr,
            foldl (fun u f => u ∪ list_to_set (unresolved_types f)) acc objs
            = acc ∪ list_to_set (concat (unresolved_types <$> objs))) as H.
  { induction objs as [|f objs IH]; intros acc; simpl.
    - by rewrite union_empty_r_L.
    - by rewrite IH, list_to_set_app_L, (assoc_L (∪)). }
  by rewrite H, union_empty_l_L.
Qed.

(** *** The list bound to the imports of the model *)

(** The list passed is bound as it is, unless it is empty; a list that a
    field object holds is shared with that object from then on. *)
Lemma bind_imports_cases (a : DataModel.args) (heap : store) :
  DataModel.bind_imports (a_imports a) heap = DataModel.Unshared (given_imports a heap)
  \/ exists r fr,
       a_imports a = Some (DataModel.Held r)
       /\ heap !! r = Some fr
       /\ imports fr <> []
       /\ given_imports a heap = imports fr
       /\ DataModel.bind_imports (a_imports a) heap = DataModel.Shared r.
Proof.
  unfold DataModel.bind_imports, given_imports.
  destruct (a_imports a) as [[l | r]|]; [by left | | by left].
  destruct (heap !! r) as [fr|] eqn:Hr; simpl; [| by left].
  destruct (imports fr) as [|i l] eqn:Hi; [by left |].
  right. exists r, fr. by rewrite Hi.
Qed.

Lemma bind_imports_shared (a : DataModel.args) (heap : store) (r : loc) :
  DataModel.bind_imports (a_imports a) heap = DataModel.Shared r <->
  a_imports a = Some (DataModel.Held r)
  /\ exists fr, heap !! r = Some fr /\ imports fr <> [].
Proof.
  unfold DataModel.bind_imports.
  destruct (a_imports a) as [[l | r']|]; [ | | ].
  - split; [done | by intros [? _]].
  - destruct (heap !! r') as [fr|] eqn:Hr; simpl.
    + destruct (imports fr) as [|i l] eqn:Hi.
      * split; [done |]. intros [[= ->] (fr' & Hfr & Hne)].
        rewrite Hr in Hfr. injection Hfr as <-. by rewrite Hi in Hne.
      * split.
        -- intros [= ->]. split; [done |]. exists fr. by rewrite Hi.
        -- by intros [[= ->] _].
    + split; [done |]. intros [[= ->] (fr' & Hfr & _)]. by rewrite Hr in Hfr.
  - split; [done | by intros [? _]].
Qed.

Lemma resolve_base_class_imports (self : DataModel.cls) (a : DataModel.args) :
  fst (DataModel.resolve_base_class (BASE_CLASS self)
         (DataModel.given_base_classes (a_base_classes a))
         (a_custom_base_class a) (a_auto_import a))
  = base_class_import self a.
Proof.
  unfold DataModel.resolve_base_class, base_class_import.
  by destruct (DataModel.given_base_classes (a_base_classes a)).
Qed.

Lemma extend_imports_unshared (l : list Import) (heap : store) (fields : list loc) :
  DataModel.extend_imports (DataModel.Unshared l) heap fields
  = (DataModel.Unshared (l ++ concat (imports <$> DataModel.objects heap fields)), heap).
Proof.
  unfold DataModel.extend_imports, DataModel.objects.
  revert l; induction fields as [|x fields IH]; intros l.
  - simpl. by rewrite app_nil_r.
  - cbn [foldl omap list_omap fst snd].
    destruct (heap !! x) as [f|]; simpl; [|apply IH].
    by rewrite IH, <- app_assoc.
Qed.

(** While the list of the field object [r] is the one bound to the
    imports of the model, every turn of the loop writes to [r]. *)
Lemma extend_imports_shared (r : loc) (fr : DataModelField.t) (heap : store)
    (fields : list loc) (L : list Import) :
  heap !! r = Some fr ->
  DataModel.extend_imports (DataModel.Shared r)
    (<[r := DataModelField.set_imports fr L]> heap) fields
  = (DataModel.Shared r,
     <[r := DataModelField.set_imports fr (foldl (shared_step heap r) L fields)]> heap).
Proof.
  intros Hr. unfold DataModel.extend_imports.
  revert L; induction fields as [|x fields IH]; intros L; [done |].
  cbn [foldl fst snd]. unfold shared_step at 2.
  destruct (decide (x = r)) as [->|Hne].
  - rewrite lookup_insert_eq. cbn [DataModel.cell_extend].
    rewrite (alter_lookup_insert _ _ r (DataModelField.set_imports fr L))
      by apply lookup_insert_eq.
    rewrite insert_insert_eq. apply IH.
  - rewrite lookup_insert_ne by done.
    destruct (heap !! x) as [f|]; simpl.
    + rewrite (alter_lookup_insert _ _ r (DataModelField.set_imports fr L))
        by apply lookup_insert_eq.
      rewrite insert_insert_eq. apply IH.
    + rewrite app_nil_r. apply IH.
Qed.

(** The loop reads, from the fields other than [r], their imports only. *)
Lemma foldl_shared_step_ext (heap heap' : store) (r : loc) (fields : list loc)
    (L : list Import) :
  (forall x, x <> r -> imports <$> heap' !! x = imports <$> heap !! x) ->
  foldl (shared_step heap' r) L fields = foldl (shared_step heap r) L fields.
Proof.
  intros H. revert L; induction fields as [|x fields IH]; intros L; [done |].
  cbn [foldl]. rewrite IH. f_equal. unfold shared_step.
  destruct (decide (x = r)); [done |]. by rewrite H.
Qed.

(** The loop only appends. *)
Lemma foldl_shared_step_prefix (heap : store) (r : loc) (fields : list loc)
    (L : list Import) :
  exists more, foldl (shared_step heap r) L fields = L ++ more.
Proof.
  revert L; induction fields as [|x fields IH]; intros L.
  - exists []. simpl. by rewrite app_nil_r.
  - cbn [foldl]. destruct (IH (shared_step heap r L x)) as [more ->].
    unfold shared_step. destruct (decide (x = r)); eexists; by rewrite <- app_assoc.
Qed.

(** When [r] is not among the fields, the loop is the plain
    concatenation. *)
Lemma foldl_shared_step_other (heap : store) (r : loc) (fields : list loc)
    (L : list Import) :
  r ∉ fields ->
  foldl (shared_step heap r) L fields
  = L ++ concat (imports <$> DataModel.objects heap fields).
Proof.
  unfold DataModel.objects.
  revert L; induction fields as [|x fields IH]; intros L Hr.
  - simpl. by rewrite app_nil_r.
  - apply not_elem_of_cons in Hr as [Hne Hr].
    cbn [foldl omap list_omap]. rewrite IH by done. unfold shared_step.
    rewrite decide_False by done.
    destruct (heap !! x) as [f|]; simpl; by rewrite <- ?app_assoc, ?app_nil_r.
Qed.

(** The imports of every field the loop visits are in the list it ends
    with, and so is all that the list held before. *)
Lemma foldl_shared_step_start (heap : store) (r : loc) (fields : list loc)
    (L : list Import) (i : Import) :
  i ∈ L -> i ∈ foldl (shared_step heap r) L fields.
Proof.
  intros Hi. destruct (foldl_shared_step_prefix heap r fields L) as [more ->].
  apply elem_of_app. by left.
Qed.

Lemma foldl_shared_step_visited (heap : store) (r : loc) (fields : list loc)
    (L : list Import) (x : loc) (f : DataModelField.t) (i : Import) :
  x ∈ fields -> x <> r -> heap !! x = Some f -> i ∈ imports f ->
  i ∈ foldl (shared_step heap r) L fields.
Proof.
  intros Hx Hne Hf Hi. revert L; induction fields as [|y fields IH]; intros L.
  - by apply elem_of_nil in Hx.
  - cbn [foldl]. apply elem_of_cons in Hx as [<- | Hx]; [| by apply IH].
    apply foldl_shared_step_start. unfold shared_step.
    rewrite decide_False by done. rewrite Hf. simpl.
    apply elem_of_app. by right.
Qed.

(** The append of the import of the base class. *)
Lemma appended_state_unshared (self : DataModel.cls) (a : DataModel.args)
    (heap : store) (l : list Import) :
  DataModel.bind_imports (a_imports a) heap = DataModel.Unshared l ->
  appended_state self a heap
  = (DataModel.Unshared (l ++ base_class_import self a), heap).
Proof.
  intros H. unfold appended_state. by rewrite H, resolve_base_class_imports.
Qed.

Lemma appended_state_shared (self : DataModel.cls) (a : DataModel.args)
    (heap : store) (r : loc) (fr : DataModelField.t) :
  DataModel.bind_imports (a_imports a) heap = DataModel.Shared r ->
  heap !! r = Some fr ->
  appended_state self a heap
  = (DataModel.Shared r,
     <[r := DataModelField.set_imports fr (imports fr ++ base_class_import self a)]>
       heap).
Proof.
  intros H Hr. unfold appended_state. rewrite H, resolve_base_class_imports.
  cbn [DataModel.cell_extend]. by rewrite (alter_lookup_insert _ _ _ _ Hr).
Qed.

(** The state before the template is loaded, when the list bound to the
    imports of the model is held by no field object. *)
Lemma imports_state_unshared (self : DataModel.cls) (a : DataModel.args)
    (heap : store) (l : list Import) :
  DataModel.bind_imports (a_imports a) heap = DataModel.Unshared l ->
  imports_state self a heap
  = (DataModel.Unshared
       (l ++ base_class_import self a
          ++ (if a_auto_import a
              then concat (imports <$> DataModel.objects heap (a_fields a))
              else [])),
     store_after a heap).
Proof.
  intros H. unfold imports_state, hints_state.
  rewrite (appended_state_unshared _ _ _ _ H). cbn [fst snd].
  destruct (a_auto_import a).
  - rewrite extend_imports_unshared.
    rewrite (objects_store_after imports) by (by intros []).
    by rewrite <- app_assoc.
  - by rewrite app_nil_r.
Qed.

(** The same state, when the list is the one the field object [r] holds. *)
Lemma imports_state_shared (self : DataModel.cls) (a : DataModel.args)
    (heap : store) (r : loc) (fr : DataModelField.t) :
  DataModel.bind_imports (a_imports a) heap = DataModel.Shared r ->
  heap !! r = Some fr ->
  imports_state self a heap
  = (DataModel.Shared r,
     <[r := DataModelField.set_imports (hint_rewrite a r fr)
              (foldl (shared_step heap r) (imports fr ++ base_class_import self a)
                 (if a_auto_import a then a_fields a else []))]>
       (store_after a heap)).
Proof.
  intros H Hr. unfold imports_state, hints_state.
  rewrite (appended_state_shared _ _ _ _ _ H Hr). cbn [fst snd].
  rewrite store_after_insert, hint_rewrite_set_imports.
  destruct (a_auto_import a); [|done].
  rewrite extend_imports_shared
    by (by rewrite store_after_lookup, Hr).
  do 3 f_equal. apply foldl_shared_step_ext. intros x _.
  rewrite store_after_lookup. destruct (heap !! x) as [f|]; simpl; [|done].
  by rewrite hint_rewrite_imports.
Qed.

(** What the model holds as imports, by the list that was passed. *)
Lemma imports_after_unshared (self : DataModel.cls) (a : DataModel.args)
    (heap : store) (l : list Import) :
  DataModel.bind_imports (a_imports a) heap = DataModel.Unshared l ->
  imports_after self a heap
  = l ++ base_class_import self a
      ++ (if a_auto_import a
          then concat (imports <$> DataModel.objects heap (a_fields a))
          else []).
Proof.
  intros H. unfold imports_after. by rewrite (imports_state_unshared _ _ _ _ H).
Qed.

Lemma imports_after_shared (self : DataModel.cls) (a : DataModel.args)
    (heap : store) (r : loc) (fr : DataModelField.t) :
  DataModel.bind_imports (a_imports a) heap = DataModel.Shared r ->
  heap !! r = Some fr ->
  imports_after self a heap
  = foldl (shared_step heap r) (imports fr ++ base_class_import self a)
      (if a_auto_import a then a_fields a else []).
Proof.
  intros H Hr. unfold imports_after. rewrite (imports_state_shared _ _ _ _ _ H Hr).
  cbn [fst snd DataModel.cell_read]. by rewrite lookup_insert_eq.
Qed.

(** The objects after the writes: each with its hint rewritten, and the
    object whose list is shared with the list of the model. *)
Lemma imports_state_lookup (self : DataModel.cls) (a : DataModel.args)
    (heap : store) (x : loc) :
  snd (imports_state self a heap) !! x
  = (fun f =>
       if shares (DataModel.bind_imports (a_imports a) heap) x
       then DataModelField.set_imports (hint_rewrite a x f) (imports_after self a heap)
       else hint_rewrite a x f) <$> heap !! x.
Proof.
  destruct (bind_imports_cases a heap) as [H | (r & fr & _ & Hr & _ & _ & H)].
  - rewrite (imports_state_unshared _ _ _ _ H), H. cbn [snd shares].
    rewrite store_after_lookup. by destruct (heap !! x).
  - rewrite (imports_after_shared _ _ _ _ _ H Hr).
    rewrite (imports_state_shared _ _ _ _ _ H Hr), H. cbn [snd shares].
    destruct (decide (r = x)) as [<-|Hne].
    + rewrite lookup_insert_eq, Hr. simpl. by rewrite bool_decide_eq_true_2.
    + rewrite lookup_insert_ne by done. rewrite store_after_lookup.
      destruct (heap !! x); simpl; [|done].
      by rewrite bool_decide_eq_false_2.
Qed.

(** The list of the model starts with the list that was passed and the
    import of the base class, and only grows from there. *)
Lemma imports_after_prefix (self : DataModel.cls) (a : DataModel.args) (heap : store) :
  exists more,
    imports_after self a heap
    = given_imports a heap ++ base_class_import self a ++ more.
Proof.
  destruct (bind_imports_cases a heap) as [H | (r & fr & _ & Hr & _ & Hg & H)].
  - rewrite (imports_after_unshared _ _ _ _ H). eauto.
  - rewrite (imports_after_shared _ _ _ _ _ H Hr), Hg.
    destruct (foldl_shared_step_prefix heap r
                (if a_auto_import a then a_fields a else [])
                (imports fr ++ base_class_import self a)) as [more ->].
    exists more. by rewrite <- app_assoc.
Qed.

(** With auto-import, the imports of every field of the model are in the
    list of the model. *)
Lemma imports_after_fields (self : DataModel.cls) (a : DataModel.args)
    (heap : store) (x : loc) (f : DataModelField.t) (i : Import) :
  a_auto_import a = true -> x ∈ a_fields a -> heap !! x = Some f ->
  i ∈ imports f -> i ∈ imports_after self a heap.
Proof.
  intros Hauto Hx Hf Hi.
  destruct (bind_imports_cases a heap) as [H | (r & fr & _ & Hr & _ & _ & H)].
  - rewrite (imports_after_unshared _ _ _ _ H), Hauto, !elem_of_app.
    right; right. apply elem_of_concat. exists (imports f). split; [|done].
    apply list_elem_of_fmap_2. apply elem_of_objects. by exists x.
  - rewrite (imports_after_shared _ _ _ _ _ H Hr), Hauto.
    destruct (decide (x = r)) as [->|Hne].
    + apply foldl_shared_step_start. rewrite Hr in Hf. injection Hf as <-.
      apply elem_of_app. by left.
    + by apply (foldl_shared_step_visited heap r _ _ x f).
Qed.

(** The writes leave the unresolved names of every object as they were. *)
Lemma hints_state_unresolved (self : DataModel.cls) (a : DataModel.args)
    (heap : store) (l : list loc) :
  unresolved_types <$> DataModel.objects (hints_state self a heap) l
  = unresolved_types <$> DataModel.objects heap l.
Proof.
  unfold hints_state. rewrite (objects_store_after unresolved_types) by (by intros []).
  apply objects_frame. intros x.
  destruct (bind_imports_cases a heap) as [H | (r & fr & _ & Hr & _ & _ & H)].
  - by rewrite (appended_state_unshared _ _ _ _ H).
  - rewrite (appended_state_shared _ _ _ _ _ H Hr). cbn [snd].
    destruct (decide (r = x)) as [<-|Hne].
    + by rewrite lookup_insert_eq, Hr.
    + by rewrite lookup_insert_ne.
Qed.

(** *** Failing at construction *)

(** C8: a component kind with no template path cannot be constructed: the
    call raises at once, returns no model, and leaves the store, the
    shared template data and the list passed as imports as they were. *)
Theorem undefined_template_raises (env : Env) (self : DataModel.cls)
    (a : DataModel.args) (heap : store) :
  TEMPLATE_FILE_PATH self = [] ->
  DataModel.__init__ env self a heap
  = DataModel.mk_outcome heap (a_extra_template_data a)
      (inl (Exception (py "TEMPLATE_FILE_PATH is undefined")))
      (DataModel.own_list (a_imports a)).
Proof. apply init_undefined. Qed.

Lemma undefined_template_raises_witness :
  TEMPLATE_FILE_PATH AbstractDataModel = []
  /\ DataModel.__init__ plain_env AbstractDataModel
       (plain_args (py "pkg.Widget") [0; 1] (Some [py "pkg.Base"])) widget_store
     = DataModel.mk_outcome widget_store None
         (inl (Exception (py "TEMPLATE_FILE_PATH is undefined"))) None.
Proof.
  split; [reflexivity |].
  exact (undefined_template_raises plain_env AbstractDataModel
           (plain_args (py "pkg.Widget") [0; 1] (Some [py "pkg.Base"]))
           widget_store eq_refl).
Defined.

(** *** Base classes *)

Lemma given_base_classes_filter (l : list pystr) :
  DataModel.given_base_classes (Some (filter (fun b => b <> []) l))
  = DataModel.given_base_classes (Some l).
Proof.
  unfold DataModel.given_base_classes; simpl.
  induction l as [|[|c b] l IH]; [done | |].
  - rewrite filter_cons_False by (intros H; by apply H).
    rewrite (filter_cons_False _ []) by (simpl; tauto). exact IH.
  - rewrite filter_cons_True by done.
    rewrite !(filter_cons_True _ (c :: b)) by done. by rewrite IH.
Qed.

Lemma given_base_classes_all_empty (l : list pystr) :
  Forall (fun b => b = []) l -> DataModel.given_base_classes (Some l) = [].
Proof.
  unfold DataModel.given_base_classes; simpl.
  induction 1 as [|b l -> _ IH]; [done |].
  rewrite filter_cons_False by (simpl; tauto). exact IH.
Qed.

(** The constructor reads [base_classes] through the filtered list only. *)
Lemma init_given_base_classes (env : Env) (self : DataModel.cls)
    (a : DataModel.args) (heap : store) (b1 b2 : option (list pystr)) :
  DataModel.given_base_classes b1 = DataModel.given_base_classes b2 ->
  DataModel.__init__ env self (DataModel.with_base_classes a b1) heap
  = DataModel.__init__ env self (DataModel.with_base_classes a b2) heap.
Proof. intros H. unfold DataModel.__init__; simpl. by rewrite H. Qed.

(** C10: empty strings among the base classes are dropped before any use:
    construction with a list of base classes is construction with its
    non-empty entries, and a list of empty strings only is an absent
    list. *)
Theorem empty_base_classes_dropped (env : Env) (self : DataModel.cls)
    (a : DataModel.args) (heap : store) (l : list pystr) :
  DataModel.__init__ env self (DataModel.with_base_classes a (Some l)) heap
  = DataModel.__init__ env self
      (DataModel.with_base_classes a (Some (filter (fun b => b <> []) l))) heap
  /\ (Forall (fun b => b = []) l ->
      DataModel.__init__ env self (DataModel.with_base_classes a (Some l)) heap
      = DataModel.__init__ env self (DataModel.with_base_classes a None) heap).
Proof.
  split.
  - apply init_given_base_classes. symmetry. apply given_base_classes_filter.
  - intros H. apply init_given_base_classes.
    by rewrite given_base_classes_all_empty.
Qed.

Lemma empty_base_classes_dropped_witness :
  Forall (fun b : pystr => b = []) [py ""; py ""]
  /\ DataModel.__init__ plain_env CustomRootType
       (DataModel.with_base_classes (plain_args (py "Widget") [0] None)
          (Some [py ""; py ""])) widget_store
     = DataModel.__init__ plain_env CustomRootType
         (DataModel.with_base_classes (plain_args (py "Widget") [0] None) None)
         widget_store.
Proof.
  assert (Forall (fun b : pystr => b = []) [py ""; py ""]) as H
    by (repeat constructor).
  split; [exact H |].
  exact (proj2 (empty_base_classes_dropped plain_env CustomRootType
                  (plain_args (py "Widget") [0] None) widget_store [py ""; py ""]) H).
Defined.

(** *** Reference classes *)

Lemma seed_reference_classes_app (BASE : pystr) (given : list pystr)
    (refs : option (list pystr)) :
  DataModel.seed_reference_classes BASE given refs
  = filter (fun r => r <> BASE) given ++ or_nil refs.
Proof. by destruct given. Qed.

Lemma elem_of_given_base_classes (x : pystr) (bases : option (list pystr)) :
  x ∈ DataModel.given_base_classes bases <-> x ∈ or_nil bases /\ x <> [].
Proof.
  unfold DataModel.given_base_classes. rewrite list_elem_of_filter.
  destruct x; simpl; split; intros [H1 H2]; split; done.
Qed.

(** C5, as stated, fails on an empty string among the base classes: it is
    a supplied name other than the default base class, and it is no
    reference class of the model. *)
Lemma empty_base_class_is_no_reference :
  (exists m,
     out_result (DataModel.__init__ plain_env CustomRootType
                   (plain_args (py "Widget") [] (Some [py ""])) ∅) = inr m
     /\ DataModel.reference_classes m = [])
  /\ py "" ∈ filter (fun b => b <> BASE_CLASS CustomRootType) [py ""].
Proof.
  split.
  - eexists. split; reflexivity.
  - apply list_elem_of_filter. split; [discriminate | apply list_elem_of_singleton; done].
Qed.

(** C5 (amended): after construction, [reference_classes] has no
    duplicates and holds exactly the references passed to the builder,
    the non-empty supplied base classes other than the default base class
    of the component, and the unresolved names of every field. *)
Theorem reference_classes_union (env : Env) (self : DataModel.cls)
    (a : DataModel.args) (heap : store) (m : DataModel.t) :
  out_result (DataModel.__init__ env self a heap) = inr m ->
  NoDup (DataModel.reference_classes m)
  /\ forall x : pystr,
       x ∈ DataModel.reference_classes m <->
       x ∈ or_nil (a_reference_classes a)
       \/ (x ∈ or_nil (a_base_classes a) /\ x <> [] /\ x <> BASE_CLASS self)
       \/ exists r f, r ∈ a_fields a /\ heap !! r = Some f /\ x ∈ unresolved_types f.
Proof.
  intros H. apply init_inversion in H as (_ & _ & _ & _ & _ & _ & _ & Hr & _).
  rewrite Hr. split; [apply NoDup_elements |]. intros x.
  rewrite elem_of_elements, elem_of_union, elem_of_list_to_set.
  rewrite seed_reference_classes_app, elem_of_app, list_elem_of_filter.
  rewrite elem_of_given_base_classes.
  rewrite collect_unresolved_concat, elem_of_list_to_set.
  rewrite hints_state_unresolved.
  rewrite elem_of_concat.
  split.
  - intros [[(Hb & Hx & He) | Hx] | (l & Hl & Hx)].
    + right; left. done.
    + by left.
    + right; right. apply list_elem_of_fmap in Hl as (f & -> & Hf).
      apply elem_of_objects in Hf as (r & Hr' & Hf). by exists r, f.
  - intros [Hx | [(Hx & He & Hb) | (r & f & Hr' & Hf & Hx)]].
    + left; by right.
    + left; left. done.
    + right. exists (unresolved_types f). split; [|done].
      apply list_elem_of_fmap. exists f. split; [done |].
      apply elem_of_objects. by exists r.
Qed.

Lemma reference_classes_union_witness :
  exists m,
    out_result (DataModel.__init__ plain_env CustomRootType
                  (plain_args (py "pkg.Widget") [0; 1]
                     (Some [py "pkg.Base"; py ""; py "pydantic.BaseModel"]))
                  widget_store) = inr m
    /\ NoDup (DataModel.reference_classes m)
    /\ py "pkg.Base" ∈ DataModel.reference_classes m.
Proof.
  eexists. split; [reflexivity |].
  pose proof (reference_classes_union plain_env CustomRootType
                (plain_args (py "pkg.Widget") [0; 1]
                   (Some [py "pkg.Base"; py ""; py "pydantic.BaseModel"]))
                widget_store _ eq_refl) as [Hnd Hin].
  split; [exact Hnd |].
  apply Hin. right; left. split; [|split; discriminate].
  apply list_elem_of_here.
Defined.

(** *** Imports *)

(** A call extends the list by itself only when that list is the
    non-empty list of a live field object. *)
Lemma self_extending_shared (a : DataModel.args) (heap : store) (r : loc) :
  self_extending a heap r ->
  exists fr,
    heap !! r = Some fr
    /\ given_imports a heap = imports fr
    /\ DataModel.bind_imports (a_imports a) heap = DataModel.Shared r.
Proof.
  intros (Ha & _ & _ & Hne). unfold given_imports in *. rewrite Ha in Hne |- *.
  destruct (heap !! r) as [fr|] eqn:Hr; [|done]. simpl in Hne.
  exists fr. split; [done |]. split; [done |].
  unfold DataModel.bind_imports. rewrite Hr. simpl. by destruct (imports fr).
Qed.

(** C7, as stated, fails: a field whose two atoms imply the same import
    holds it twice, and a model with two optional fields holds the
    Optional import twice. *)
Lemma imports_keep_duplicates :
  imports two_dates = [IMPORT_DATE; IMPORT_DATE; IMPORT_UNION]
  /\ ~ NoDup (imports two_dates)
  /\ exists m,
       out_result (DataModel.__init__ plain_env CustomRootType
                     (plain_args (py "Widget") [1; 2] None)
                     {[ 1 := widget_parts; 2 := widget_parts ]}) = inr m
       /\ DataModel.imports m
          = [from_full_path (py "pydantic.BaseModel");
             IMPORT_UNION; IMPORT_OPTIONAL; IMPORT_UNION; IMPORT_OPTIONAL]
       /\ ~ NoDup (DataModel.imports m).
Proof.
  split; [reflexivity |]. split.
  - intros H. apply NoDup_cons_1_1 in H. apply H. apply list_elem_of_here.
  - eexists. split; [reflexivity |]. split; [reflexivity |].
    intros H. apply NoDup_cons_1_2, NoDup_cons_1_1 in H. apply H.
    apply list_elem_of_further, list_elem_of_here.
Qed.

(** C7 (amended): imports are accumulated in order and are not
    deduplicated at this layer. A field hands over the imports it was
    given, then those of its atoms in order, then those the composition
    implies. A model holds what the list passed as imports held, then the
    import of the default or custom base class when no base class is
    given and auto-import is on, then (with auto-import) the imports of
    each of its fields in order; this holds unless the call extends the
    list by itself, which it does when the list passed is the non-empty
    list that one of the model's fields holds and auto-import is on. The
    model keeps the list it was passed and appends in place, so in that
    call the loop over the fields appends, at that field, the list as it
    has grown so far, and the field ends with the same list as the
    model. *)
Theorem imports_are_concatenated :
  (forall (wide_word : N -> bool) (values : DataModelField.kwargs)
          (self : DataModelField.t),
     DataModelField.__init__ wide_word values = inr self ->
     imports self
     = DataModelField.kw_imports values
       ++ concat ((fun d => or_nil (DataType.imports_ d))
                    <$> DataModelField.kw_data_types values)
       ++ implied_imports
            (DataType.type_hint <$> DataModelField.kw_data_types values)
            (DataModelField.kw_is_list values) (DataModelField.kw_is_union values)
            (DataModelField.kw_required values))
  /\ (forall (env : Env) (self : DataModel.cls) (a : DataModel.args)
             (heap : store) (m : DataModel.t),
        out_result (DataModel.__init__ env self a heap) = inr m ->
        ((forall r, ~ self_extending a heap r) ->
         DataModel.imports m
         = given_imports a heap ++ base_class_import self a
           ++ (if a_auto_import a
               then concat (imports <$> DataModel.objects heap (a_fields a))
               else []))
        /\ (forall r,
              self_extending a heap r ->
              DataModel.imports m
              = foldl (shared_step heap r)
                  (given_imports a heap ++ base_class_import self a) (a_fields a)
              /\ imports <$> out_store (DataModel.__init__ env self a heap) !! r
                 = Some (DataModel.imports m))).
Proof.
  split.
  - intros wide_word values self H. by apply init_returns_closed_form in H as ->.
  - intros env self a heap m H.
    apply init_inversion in H as (_ & Hs & _ & _ & _ & _ & _ & _ & Hi).
    rewrite Hs, Hi. split.
    + intros Hno.
      destruct (bind_imports_cases a heap) as [H | (r & fr & Ha & Hr & Hne & Hg & H)].
      * apply (imports_after_unshared _ _ _ _ H).
      * rewrite (imports_after_shared _ _ _ _ _ H Hr), Hg.
        destruct (a_auto_import a) eqn:Hauto.
        -- destruct (decide (r ∈ a_fields a)) as [Hin | Hout].
           ++ exfalso. apply (Hno r). unfold self_extending.
              rewrite Hg. done.
           ++ rewrite (foldl_shared_step_other _ _ _ _ Hout).
              by rewrite <- app_assoc.
        -- simpl. by rewrite app_nil_r.
    + intros r Hself.
      destruct (self_extending_shared _ _ _ Hself) as (fr & Hr & Hg & H).
      destruct Hself as (_ & _ & Hauto & _).
      rewrite imports_state_lookup, H, Hr. cbn [shares].
      rewrite bool_decide_eq_true_2 by done.
      rewrite (imports_after_shared _ _ _ _ _ H Hr), Hg, Hauto. done.
Qed.

Lemma imports_are_concatenated_witness :
  (exists m,
     out_result (DataModel.__init__ plain_env CustomRootType
                   (plain_args (py "pkg.Widget") [0; 1] None) widget_store) = inr m
     /\ DataModel.imports m
        = [] ++ [from_full_path (py "pydantic.BaseModel")]
          ++ concat [[]; [IMPORT_UNION; IMPORT_OPTIONAL]])
  /\ (exists m,
        out_result (DataModel.__init__ plain_env CustomRootType
                      (with_held_imports (plain_args (py "Widget") [1] None) 1)
                      widget_store) = inr m
        /\ DataModel.imports m
           = [IMPORT_UNION; IMPORT_OPTIONAL; from_full_path (py "pydantic.BaseModel");
              IMPORT_UNION; IMPORT_OPTIONAL; from_full_path (py "pydantic.BaseModel")]
        /\ imports
             <$> out_store (DataModel.__init__ plain_env CustomRootType
                              (with_held_imports (plain_args (py "Widget") [1] None) 1)
                              widget_store) !! 1
           = Some (DataModel.imports m)).
Proof.
  split.
  - eexists. split; [reflexivity |].
    refine (proj1 (proj2 imports_are_concatenated plain_env CustomRootType
                     (plain_args (py "pkg.Widget") [0; 1] None) widget_store _ eq_refl)
              _).
    intros r (Ha & _). discriminate Ha.
  - eexists. split; [reflexivity |].
    assert (self_extending (with_held_imports (plain_args (py "Widget") [1] None) 1)
              widget_store 1) as Hself.
    { split; [reflexivity |]. split; [apply list_elem_of_here |].
      split; [reflexivity | discriminate]. }
    exact (proj2 (proj2 imports_are_concatenated plain_env CustomRootType
                    (with_held_imports (plain_args (py "Widget") [1] None) 1)
                    widget_store _ eq_refl) 1 Hself).
Defined.

(** *** The module prefix *)

Lemma strip_base_class_prefix (prefix rest : pystr) :
  DataModel.strip_base_class prefix (prefix ++ rest) = rest.
Proof.
  unfold DataModel.strip_base_class.
  by rewrite startswith_app, replace1_prefix.
Qed.

Lemma strip_type_hint_first (prefix hint : pystr) (f : DataModelField.t) :
  type_hint f = Some hint ->
  Str.contains hint prefix = true ->
  exists before after,
    first_occurrence hint prefix before after
    /\ DataModel.strip_type_hint prefix f
       = DataModelField.set_type_hint f (Some (before ++ after)).
Proof.
  intros Hh Hc. unfold DataModel.strip_type_hint. rewrite Hh, Hc.
  destruct (replace1_first hint prefix [] Hc) as (before & after & Hf & Hr).
  exists before, after. split; [done |]. by rewrite Hr.
Qed.

Lemma strip_type_hint_absent (prefix : pystr) (f : DataModelField.t) :
  match type_hint f with
  | Some hint => Str.contains hint prefix = false
  | None => True
  end ->
  DataModel.strip_type_hint prefix f = f.
Proof.
  unfold DataModel.strip_type_hint. destruct (type_hint f); [|done].
  by intros ->.
Qed.

(** What the writes leave of an object, seen through an attribute other
    than [imports]: the object with its hint rewritten. *)
Lemma imports_state_frame {A} (g : DataModelField.t -> A) (self : DataModel.cls)
    (a : DataModel.args) (heap : store) (x : loc) :
  (forall f l, g (DataModelField.set_imports f l) = g f) ->
  g <$> snd (imports_state self a heap) !! x
  = (fun f => g (hint_rewrite a x f)) <$> heap !! x.
Proof.
  intros Hg. rewrite imports_state_lookup. destruct (heap !! x) as [f|]; simpl; [|done].
  destruct (shares _ x); by rewrite ?Hg.
Qed.

(** C4, as stated, fails for a field that the model lists twice: its hint
    loses the prefix at two places, where taking off the first occurrence
    only leaves the second. *)
Lemma listed_twice_stripped_twice :
  type_hint widget_parts = Some (py "Optional[Union[pkg.A, pkg.B]]")
  /\ first_occurrence (py "Optional[Union[pkg.A, pkg.B]]") (py "pkg.")
       (py "Optional[Union[") (py "A, pkg.B]]")
  /\ (exists m,
        out_result (DataModel.__init__ plain_env CustomRootType
                      (plain_args (py "pkg.Widget") [1; 1] None)
                      {[ 1 := widget_parts ]}) = inr m
        /\ DataModel.fields m = [1; 1])
  /\ type_hint
       <$> out_store (DataModel.__init__ plain_env CustomRootType
                        (plain_args (py "pkg.Widget") [1; 1] None)
                        {[ 1 := widget_parts ]}) !! 1
     = Some (Some (py "Optional[Union[A, B]]"))
  /\ py "Optional[Union[A, B]]" <> py "Optional[Union[" ++ py "A, pkg.B]]".
Proof.
  split; [reflexivity |]. split; [| split; [| split]].
  - split; [reflexivity |]. intros a' b' H.
    destruct (decide (length (py "Optional[Union[") <= length a')) as [Hle | Hgt];
      [exact Hle | exfalso].
    do 15 (destruct a' as [|? a']; [discriminate H |]).
    simpl in Hgt. lia.
  - eexists. split; reflexivity.
  - reflexivity.
  - discriminate.
Qed.

(** C4 (amended): a model whose name splits at its last dot into a module
    and a class name has the module prefix (module and dot) taken off its
    base-class expression when the expression starts with it. The loop
    over the fields takes the prefix off the hint of a field at the
    leftmost place where the hint contains it, once for each time the
    field is listed: a field listed once loses that one occurrence and
    keeps later ones, a hint without the prefix (or no hint) is left as
    it is, and a field listed more often loses as many occurrences, one
    after the other. *)
Theorem module_prefix_stripped_per_listing (env : Env) (self : DataModel.cls)
    (a : DataModel.args) (heap : store) (m : DataModel.t)
    (module class_name : pystr) :
  out_result (DataModel.__init__ env self a heap) = inr m ->
  a_name a = module ++ DOT :: class_name ->
  DOT ∉ class_name ->
  let prefix := module ++ [DOT] in
  let after_init := out_store (DataModel.__init__ env self a heap) in
  DataModel.class_name m = class_name
  /\ (forall rest, unstripped_base_class self a = prefix ++ rest ->
                   DataModel.base_class m = rest)
  /\ (Str.startswith (unstripped_base_class self a) prefix = false ->
      DataModel.base_class m = unstripped_base_class self a)
  /\ forall (r : loc) (f : DataModelField.t),
       heap !! r = Some f ->
       type_hint <$> after_init !! r
       = Some (type_hint
                 (Nat.iter (count_occ Nat.eq_dec (a_fields a) r)
                    (DataModel.strip_type_hint prefix) f))
       /\ (count_occ Nat.eq_dec (a_fields a) r = 1 ->
           match type_hint f with
           | Some hint =>
               if Str.contains hint prefix then
                 exists before after,
                   first_occurrence hint prefix before after
                   /\ type_hint <$> after_init !! r = Some (Some (before ++ after))
               else type_hint <$> after_init !! r = Some (Some hint)
           | None => type_hint <$> after_init !! r = Some None
           end).
Proof.
  intros H Hname Hdot prefix after_init.
  apply init_inversion in H as (_ & Hs & _ & _ & _ & Hb & Hc & _).
  subst after_init prefix. rewrite Hs.
  rewrite Hname, (rsplit1_last_separator DOT module class_name Hdot) in Hb, Hc.
  split; [done |]. split; [|split].
  - intros rest Hrest. rewrite Hb, Hrest. apply strip_base_class_prefix.
  - intros Hsw. rewrite Hb. unfold DataModel.strip_base_class. by rewrite Hsw.
  - intros r f Hf.
    rewrite (imports_state_frame type_hint) by (by intros []).
    rewrite Hf. simpl. rewrite (hint_rewrite_dotted a r f module class_name Hname Hdot).
    split; [done |]. intros ->. simpl.
    destruct (type_hint f) as [hint|] eqn:Hh.
    + destruct (Str.contains hint (module ++ [DOT])) eqn:Hc'.
      * destruct (strip_type_hint_first (module ++ [DOT]) hint f Hh Hc')
          as (before & after & Hfo & Hst).
        exists before, after. split; [done |]. by rewrite Hst.
      * rewrite strip_type_hint_absent; [by rewrite Hh |]. by rewrite Hh.
    + rewrite strip_type_hint_absent; [by rewrite Hh |]. by rewrite Hh.
Qed.

Lemma module_prefix_stripped_per_listing_witness :
  exists m after_init,
    DataModel.__init__ plain_env CustomRootType
      (plain_args (py "pkg.Widget") [0; 1] (Some [py "pkg.Base"])) widget_store
    = DataModel.mk_outcome after_init None (inr m) None
    /\ DataModel.class_name m = py "Widget"
    /\ DataModel.base_class m = py "Base"
    /\ type_hint widget_parts = Some (py "Optional[Union[pkg.A, pkg.B]]")
    /\ type_hint <$> after_init !! 1 = Some (Some (py "Optional[Union[A, pkg.B]]")).
Proof.
  eexists _, _. split; [reflexivity |].
  pose proof (module_prefix_stripped_per_listing plain_env CustomRootType
                (plain_args (py "pkg.Widget") [0; 1] (Some [py "pkg.Base"]))
                widget_store _ (py "pkg") (py "Widget") eq_refl eq_refl
                ltac:(compute_done)) as (Hc & Hb & _ & Hf).
  split; [exact Hc |]. split; [exact (Hb (py "Base") eq_refl) |].
  split; [reflexivity |].
  exact (proj1 (Hf 1 widget_parts eq_refl)).
Defined.

(** *** What construction writes to the fields *)

(** C9, as stated, fails: constructing the model [pkg.Widget] rewrites the
    hint of the field it is given, from [pkg.Base] to [Base]. *)
Lemma construction_rewrites_hint :
  type_hint <$> widget_store !! 0 = Some (Some (py "pkg.Base"))
  /\ type_hint
       <$> out_store (DataModel.__init__ plain_env CustomRootType
                        (plain_args (py "pkg.Widget") [0; 1] None) widget_store) !! 0
     = Some (Some (py "Base")).
Proof. split; reflexivity. Qed.

(** C9 (amended): constructing a model changes no attribute of a field
    other than its hint and its imports: name, alias, default, required
    and unresolved names are as they were, and nothing is taken from the
    imports. The imports are as they were too, unless the component has a
    template path and the list passed to the constructor as imports is
    the non-empty list that this field holds: the model then keeps that
    list and appends to it, first the import of the base class and then,
    with auto-import, the imports of each of its fields in order (at this
    field, the list as it has grown so far). The hint is as it was when
    the field is not among the model's fields, when the model name has no
    dot, or when the component has no template path; for a dotted name,
    the loop over the fields rewrites the hint once for each time the
    field is listed. *)
Theorem construction_frames_fields (env : Env) (self : DataModel.cls)
    (a : DataModel.args) (heap : store) (r : loc) (f : DataModelField.t) :
  heap !! r = Some f ->
  exists f',
    out_store (DataModel.__init__ env self a heap) !! r = Some f'
    /\ f' = DataModelField.set_imports
              (DataModelField.set_type_hint f (type_hint f')) (imports f')
    /\ (name f' = name f /\ alias f' = alias f /\ default f' = default f
        /\ required f' = required f /\ unresolved_types f' = unresolved_types f)
    /\ (exists more, imports f' = imports f ++ more)
    /\ (a_imports a <> Some (DataModel.Held r) \/ imports f = []
        \/ TEMPLATE_FILE_PATH self = [] -> imports f' = imports f)
    /\ (a_imports a = Some (DataModel.Held r) ->
        imports f <> [] ->
        TEMPLATE_FILE_PATH self <> [] ->
        imports f'
        = foldl (shared_step heap r) (imports f ++ base_class_import self a)
            (if a_auto_import a then a_fields a else []))
    /\ (r ∉ a_fields a \/ DOT ∉ a_name a \/ TEMPLATE_FILE_PATH self = [] ->
        type_hint f' = type_hint f)
    /\ (forall module class_name,
          TEMPLATE_FILE_PATH self <> [] ->
          a_name a = module ++ DOT :: class_name ->
          DOT ∉ class_name ->
          type_hint f'
          = type_hint (Nat.iter (count_occ Nat.eq_dec (a_fields a) r)
                         (DataModel.strip_type_hint (module ++ [DOT])) f)).
Proof.
  intros Hf. rewrite init_store.
  destruct (TEMPLATE_FILE_PATH self) as [|c p] eqn:Ht; simpl.
  { exists f. split; [done |]. split; [by destruct f |]. split; [done |].
    split; [exists []; by rewrite app_nil_r |]. split; [done |].
    split; [done |]. split; [done |]. by intros ?? []. }
  rewrite imports_state_lookup, Hf. simpl.
  pose proof (hint_rewrite_frame a r f) as Hframe.
  set (h := hint_rewrite a r f) in *.
  assert (shares (DataModel.bind_imports (a_imports a) heap) r = true
          <-> a_imports a = Some (DataModel.Held r) /\ imports f <> []) as Hshares.
  { destruct (DataModel.bind_imports (a_imports a) heap) as [l | r'] eqn:Hb; simpl.
    - split; [done |]. intros [Ha Hne].
      assert (DataModel.bind_imports (a_imports a) heap = DataModel.Shared r) as Hb'
        by (apply bind_imports_shared; split; [done |]; by exists f).
      congruence.
    - rewrite bool_decide_eq_true. split.
      + intros ->. apply bind_imports_shared in Hb as (Ha & fr & Hr & Hne).
        rewrite Hf in Hr. by injection Hr as <-.
      + intros [Ha _]. apply bind_imports_shared in Hb as (Ha' & _). congruence. }
  destruct (shares (DataModel.bind_imports (a_imports a) heap) r) eqn:Hsh.
  - destruct (proj1 Hshares eq_refl) as [Ha Hne].
    assert (DataModel.bind_imports (a_imports a) heap = DataModel.Shared r) as Hb
      by (apply bind_imports_shared; split; [done |]; by exists f).
    rewrite (imports_after_shared _ _ _ _ _ Hb Hf).
    eexists. split; [reflexivity |]. split; [| split; [| split; [| split; [| split]]]].
    + simpl. by rewrite <- Hframe.
    + rewrite Hframe. by destruct f.
    + simpl.
      destruct (foldl_shared_step_prefix heap r
                  (if a_auto_import a then a_fields a else [])
                  (imports f ++ base_class_import self a)) as [more ->].
      eexists. by rewrite <- app_assoc.
    + intros [Hno | [Hempty | Hnone]]; done.
    + done.
    + split.
      * intros [Hr | [Hn | Hnone]]; [| | done]; simpl; subst h;
          by rewrite hint_rewrite_unlisted by tauto.
      * intros module class_name _ Hname Hdot. simpl. subst h.
        by rewrite (hint_rewrite_dotted a r f module class_name Hname Hdot).
  - assert (~ (a_imports a = Some (DataModel.Held r) /\ imports f <> [])) as Hno
      by (rewrite <- Hshares; done).
    exists h. split; [done |]. split; [| split; [| split; [| split; [| split]]]].
    + rewrite Hframe. by destruct f.
    + rewrite Hframe. by destruct f.
    + exists []. rewrite Hframe, app_nil_r. by destruct f.
    + intros _. rewrite Hframe. by destruct f.
    + intros Ha Hne. by destruct Hno.
    + split.
      * intros [Hr | [Hn | Hnone]]; [| | done]; subst h;
          by rewrite hint_rewrite_unlisted by tauto.
      * intros module class_name _ Hname Hdot. subst h.
        by rewrite (hint_rewrite_dotted a r f module class_name Hname Hdot).
Qed.

Lemma construction_frames_fields_witness :
  (exists f',
     out_store (DataModel.__init__ plain_env CustomRootType
                  (plain_args (py "pkg.Widget") [0; 1] None) widget_store) !! 1
     = Some f'
     /\ type_hint f' = Some (py "Optional[Union[A, pkg.B]]")
     /\ imports f' = imports widget_parts)
  /\ (exists f',
        out_store (DataModel.__init__ plain_env CustomRootType
                     (with_held_imports (plain_args (py "pkg.Widget") [0; 1] None) 1)
                     widget_store) !! 1
        = Some f'
        /\ imports widget_parts = [IMPORT_UNION; IMPORT_OPTIONAL]
        /\ imports f'
           = [IMPORT_UNION; IMPORT_OPTIONAL; from_full_path (py "pydantic.BaseModel");
              IMPORT_UNION; IMPORT_OPTIONAL; from_full_path (py "pydantic.BaseModel")]).
Proof.
  split.
  - destruct (construction_frames_fields plain_env CustomRootType
                (plain_args (py "pkg.Widget") [0; 1] None) widget_store 1
                widget_parts eq_refl)
      as (f' & Hl & _ & _ & _ & Hi & _ & _ & Hd).
    exists f'. split; [exact Hl |]. split.
    + rewrite (Hd (py "pkg") (py "Widget") ltac:(discriminate) eq_refl
                 ltac:(compute_done)).
      reflexivity.
    + apply Hi. left. discriminate.
  - destruct (construction_frames_fields plain_env CustomRootType
                (with_held_imports (plain_args (py "pkg.Widget") [0; 1] None) 1)
                widget_store 1 widget_parts eq_refl)
      as (f' & Hl & _ & _ & _ & _ & Hs & _).
    exists f'. split; [exact Hl |]. split; [reflexivity |].
    rewrite (Hs eq_refl ltac:(discriminate) ltac:(discriminate)). reflexivity.
Defined.

(** ** Further properties of model construction *)

Lemma rsplit1_last_no_separator (sep : N) (s : pystr) :
  sep ∉ Str.rsplit1_last sep s.
Proof.
  unfold Str.rsplit1_last. destruct (Str.rsplit1 sep s) as [[a b]|] eqn:H.
  - by apply rsplit1_Some in H as [_ H].
  - by apply rsplit1_None.
Qed.

Lemma strip_base_class_unqualified (module base_class : pystr) :
  DOT ∉ base_class ->
  DataModel.strip_base_class (module ++ [DOT]) base_class = base_class.
Proof.
  intros Hdot. unfold DataModel.strip_base_class.
  destruct (Str.startswith base_class (module ++ [DOT])) eqn:Hs; [| done].
  apply startswith_spec in Hs as [rest ->]. exfalso. apply Hdot.
  rewrite !elem_of_app, list_elem_of_singleton. by left; right.
Qed.

Lemma unstripped_without_base_classes (self : DataModel.cls) (a : DataModel.args) :
  DataModel.given_base_classes (a_base_classes a) = [] ->
  unstripped_base_class self a = Str.rsplit1_last DOT (base_class_full_path self a).
Proof.
  intros H. unfold unstripped_base_class, DataModel.resolve_base_class. by rewrite H.
Qed.

Lemma unstripped_with_base_classes (self : DataModel.cls) (a : DataModel.args)
    (b : pystr) (rest : list pystr) :
  DataModel.given_base_classes (a_base_classes a) = b :: rest ->
  unstripped_base_class self a = Str.join (py ", ") (b :: rest).
Proof.
  intros H. unfold unstripped_base_class, DataModel.resolve_base_class. by rewrite H.
Qed.

Lemma join_cons_app (sep p x : pystr) (rest : list pystr) :
  Str.join sep ((p ++ x) :: rest) = p ++ Str.join sep (x :: rest).
Proof. destruct rest; simpl; by rewrite <- ?app_assoc. Qed.

(** X8: the class name of a model is the last dotted segment of its name:
    it has no dot, and the name is the class name itself or ends in a dot
    followed by it; a name without a dot is the class name. *)
Theorem class_name_is_last_segment (env : Env) (self : DataModel.cls)
    (a : DataModel.args) (heap : store) (m : DataModel.t) :
  out_result (DataModel.__init__ env self a heap) = inr m ->
  (DOT ∉ DataModel.class_name m)
  /\ (DataModel.name m = DataModel.class_name m
      \/ exists module, DataModel.name m = module ++ DOT :: DataModel.class_name m)
  /\ (DOT ∉ DataModel.name m -> DataModel.class_name m = DataModel.name m).
Proof.
  intros H. apply init_inversion in H as (_ & _ & Hn & _ & _ & _ & Hc & _).
  rewrite Hn, Hc.
  destruct (Str.rsplit1 DOT (a_name a)) as [[module class_name]|] eqn:Hs.
  - apply rsplit1_Some in Hs as [Hs Hdot]. split; [done |]. split.
    + right. by exists module.
    + intros Hno. exfalso. apply Hno. rewrite Hs, elem_of_app.
      right. apply list_elem_of_here.
  - split; [by apply rsplit1_None |]. split; [by left | done].
Qed.

Lemma class_name_is_last_segment_witness :
  exists m,
    out_result (DataModel.__init__ plain_env CustomRootType
                  (plain_args (py "a.b.Widget") [] None) ∅) = inr m
    /\ DataModel.class_name m = py "Widget"
    /\ DOT ∉ DataModel.class_name m.
Proof.
  eexists. split; [reflexivity |]. split; [reflexivity |].
  exact (proj1 (class_name_is_last_segment plain_env CustomRootType
                  (plain_args (py "a.b.Widget") [] None) ∅ _ eq_refl)).
Defined.

(** X9: without base classes the base-class expression of a model is an
    unqualified name: the last dotted segment of the custom base class,
    or of the default one when no custom base class (or an empty one) is
    given, and it never contains a dot, whatever the model is called. *)
Theorem default_base_class_unqualified (env : Env) (self : DataModel.cls)
    (a : DataModel.args) (heap : store) (m : DataModel.t) :
  out_result (DataModel.__init__ env self a heap) = inr m ->
  DataModel.base_classes m = [] ->
  DataModel.base_class m = Str.rsplit1_last DOT (base_class_full_path self a)
  /\ (DOT ∉ DataModel.base_class m)
  /\ (a_custom_base_class a = None \/ a_custom_base_class a = Some [] ->
      base_class_full_path self a = BASE_CLASS self).
Proof.
  intros H Hb. apply init_inversion in H as (_ & _ & _ & _ & Hg & Hbc & _).
  rewrite Hg in Hb. rewrite Hbc, (unstripped_without_base_classes _ _ Hb).
  pose proof (rsplit1_last_no_separator DOT (base_class_full_path self a)) as Hdot.
  assert (match Str.rsplit1 DOT (a_name a) with
          | Some (module, _) =>
              DataModel.strip_base_class (module ++ [DOT])
                (Str.rsplit1_last DOT (base_class_full_path self a))
          | None => Str.rsplit1_last DOT (base_class_full_path self a)
          end = Str.rsplit1_last DOT (base_class_full_path self a)) as ->.
  { destruct (Str.rsplit1 DOT (a_name a)) as [[module ?]|]; [| done].
    by apply strip_base_class_unqualified. }
  split; [done |]. split; [done |].
  unfold base_class_full_path. by intros [-> | ->].
Qed.

Lemma default_base_class_unqualified_witness :
  exists m,
    out_result (DataModel.__init__ plain_env CustomRootType
                  (with_custom_base_class (plain_args (py "pkg.Widget") [] (Some [py ""]))
                     (Some (py "pkg.base.Root"))) ∅) = inr m
    /\ DataModel.base_class m = py "Root".
Proof.
  eexists. split; [reflexivity |].
  exact (proj1 (default_base_class_unqualified plain_env CustomRootType
                  (with_custom_base_class (plain_args (py "pkg.Widget") [] (Some [py ""]))
                     (Some (py "pkg.base.Root"))) ∅ _ eq_refl eq_refl)).
Defined.

(** X10: when a non-empty base class is given, the custom base class is
    not looked at: construction has the same outcome whatever custom base
    class is passed. *)
Theorem custom_base_class_ignored (env : Env) (self : DataModel.cls)
    (a : DataModel.args) (heap : store) (c : option pystr) :
  DataModel.given_base_classes (a_base_classes a) <> [] ->
  DataModel.__init__ env self (with_custom_base_class a c) heap
  = DataModel.__init__ env self a heap.
Proof.
  intros H. destruct a as [n f d b cb ct ex im au rc].
  unfold DataModel.__init__, with_custom_base_class, DataModel.resolve_base_class;
    simpl in *.
  by destruct (DataModel.given_base_classes b).
Qed.

Lemma custom_base_class_ignored_witness :
  DataModel.__init__ plain_env CustomRootType
    (with_custom_base_class (plain_args (py "Widget") [0] (Some [py "Base"]))
       (Some (py "other.Root"))) widget_store
  = DataModel.__init__ plain_env CustomRootType
      (plain_args (py "Widget") [0] (Some [py "Base"])) widget_store.
Proof.
  exact (custom_base_class_ignored plain_env CustomRootType
           (plain_args (py "Widget") [0] (Some [py "Base"])) widget_store
           (Some (py "other.Root")) ltac:(discriminate)).
Defined.

(** X11: of several base classes only the first can lose the module
    prefix: when the first base class starts with it, the base-class
    expression is the join of the first one without the prefix and the
    others as they were given. *)
Theorem only_first_base_class_is_stripped (env : Env) (self : DataModel.cls)
    (a : DataModel.args) (heap : store) (m : DataModel.t)
    (module class_name x : pystr) (rest : list pystr) :
  out_result (DataModel.__init__ env self a heap) = inr m ->
  a_name a = module ++ DOT :: class_name ->
  DOT ∉ class_name ->
  DataModel.base_classes m = (module ++ DOT :: x) :: rest ->
  DataModel.base_class m = Str.join (py ", ") (x :: rest).
Proof.
  intros H Hname Hdot Hb.
  apply init_inversion in H as (_ & _ & _ & _ & Hg & Hbc & _).
  rewrite Hg in Hb. rewrite Hbc, (unstripped_with_base_classes _ _ _ _ Hb).
  rewrite Hname, (rsplit1_last_separator DOT module class_name Hdot).
  replace (module ++ DOT :: x) with ((module ++ [DOT]) ++ x)
    by (by rewrite <- app_assoc).
  rewrite join_cons_app. apply strip_base_class_prefix.
Qed.

Lemma only_first_base_class_is_stripped_witness :
  exists m,
    out_result (DataModel.__init__ plain_env CustomRootType
                  (plain_args (py "pkg.Widget") [] (Some [py "pkg.A"; py "pkg.B"])) ∅)
    = inr m
    /\ DataModel.base_class m = py "A, pkg.B".
Proof.
  eexists. split; [reflexivity |].
  exact (only_first_base_class_is_stripped plain_env CustomRootType
           (plain_args (py "pkg.Widget") [] (Some [py "pkg.A"; py "pkg.B"])) ∅ _
           (py "pkg") (py "Widget") (py "A") [py "pkg.B"]
           eq_refl eq_refl ltac:(compute_done) eq_refl).
Defined.

(** *** Outcomes of construction *)

(** X12: the writes of construction come before the template is loaded,
    so they are made whether it loads or not: a construction that fails
    at the template leaves the field objects, the shared template data
    and a list of the caller's own passed as imports as a construction
    that returns a model leaves them. With a template path, the call
    fails exactly when the template does not load, and a model holds the
    template and the path it was loaded from. A list of the caller's own
    is shared with the model only when it is not empty: the caller then
    sees it extended by the import of the base class and the imports of
    the fields, and an empty list stays empty. *)
Theorem writes_precede_template_loading (env env' : Env) (self : DataModel.cls)
    (a : DataModel.args) (heap : store) :
  let path :=
    DataModel.resolve_template env (TEMPLATE_FILE_PATH self) (a_custom_template_dir a) in
  let out := DataModel.__init__ env self a heap in
  let out' := DataModel.__init__ env' self a heap in
  out_store out = out_store out'
  /\ out_extra_template_data out = out_extra_template_data out'
  /\ out_imports out = out_imports out'
  /\ (TEMPLATE_FILE_PATH self <> [] ->
      (load_template env path = None <-> out_result out = inl (TemplateLoadError path))
      /\ (forall template,
            load_template env path = Some template <->
            exists m,
              out_result out = inr m /\ DataModel._template m = template
              /\ DataModel.template_file_path m = path)
      /\ (forall l,
            a_imports a = Some (DataModel.Own l) ->
            out_imports out
            = Some (match l with
                    | [] => []
                    | _ :: _ =>
                        l ++ base_class_import self a
                          ++ (if a_auto_import a
                              then concat (imports
                                             <$> DataModel.objects heap (a_fields a))
                              else [])
                    end))).
Proof.
  intros path out out'. subst path out out'. rewrite !init_unfold.
  destruct (TEMPLATE_FILE_PATH self) as [|c p] eqn:Hp; simpl; [done |].
  split; [done |]. split; [done |]. split; [done |]. intros _.
  split; [| split].
  - destruct (load_template env _); simpl; split; done.
  - intros template. destruct (load_template env _) as [t|]; simpl; split.
    + intros [= ->]. eexists. done.
    + intros (m & [= <-] & <- & _). done.
    + done.
    + by intros (m & ? & _).
  - intros l Ha. rewrite Ha. destruct l as [|i l]; [done |]. simpl. f_equal.
    apply (imports_after_unshared self a heap (i :: l)).
    unfold DataModel.bind_imports. by rewrite Ha.
Qed.

Lemma writes_precede_template_loading_witness :
  load_template (mkEnv (path_name plain_env) (path_join plain_env)
                   (path_exists plain_env) (fun _ => None))
    (py "pydantic/BaseModel_root.jinja2") = None
  /\ out_result
       (DataModel.__init__
          (mkEnv (path_name plain_env) (path_join plain_env) (path_exists plain_env)
             (fun _ => None))
          CustomRootType
          (with_own_imports (plain_args (py "pkg.Widget") [0; 1] None) [IMPORT_DATE])
          widget_store)
     = inl (TemplateLoadError (py "pydantic/BaseModel_root.jinja2"))
  /\ out_imports
       (DataModel.__init__
          (mkEnv (path_name plain_env) (path_join plain_env) (path_exists plain_env)
             (fun _ => None))
          CustomRootType
          (with_own_imports (plain_args (py "pkg.Widget") [0; 1] None) [IMPORT_DATE])
          widget_store)
     = Some [IMPORT_DATE; from_full_path (py "pydantic.BaseModel");
             IMPORT_UNION; IMPORT_OPTIONAL].
Proof.
  destruct (writes_precede_template_loading
              (mkEnv (path_name plain_env) (path_join plain_env)
                 (path_exists plain_env) (fun _ => None))
              plain_env CustomRootType
              (with_own_imports (plain_args (py "pkg.Widget") [0; 1] None)
                 [IMPORT_DATE])
              widget_store)
    as (_ & _ & _ & H).
  destruct (H ltac:(discriminate)) as (Hfail & _ & Hown).
  split; [reflexivity |]. split.
  - exact (proj1 Hfail eq_refl).
  - exact (Hown [IMPORT_DATE] eq_refl).
Defined.

(** X13: construction neither creates nor removes a field object: the
    store holds the same objects before and after, whatever the outcome. *)
Theorem construction_keeps_objects (env : Env) (self : DataModel.cls)
    (a : DataModel.args) (heap : store) :
  dom (out_store (DataModel.__init__ env self a heap)) = dom heap.
Proof.
  rewrite init_store. destruct (Str.truthy (TEMPLATE_FILE_PATH self)); [| done].
  apply set_eq. intros x. rewrite !elem_of_dom, imports_state_lookup.
  apply fmap_is_Some.
Qed.

(** X14: what travels from the atoms to the model. For a field built by
    the field constructor and listed among the fields of a model, every
    unresolved name of every atom is a reference class of the model, and
    with auto-import every import of every atom is among the imports of
    the model. *)
Theorem atoms_reach_the_model (wide_word : N -> bool) (env : Env)
    (self : DataModel.cls) (a : DataModel.args) (heap : store) (m : DataModel.t)
    (r : loc) (values : DataModelField.kwargs) (f : DataModelField.t)
    (d : DataType.t) :
  out_result (DataModel.__init__ env self a heap) = inr m ->
  r ∈ a_fields a ->
  DataModelField.__init__ wide_word values = inr f ->
  heap !! r = Some f ->
  d ∈ DataModelField.kw_data_types values ->
  (forall x, x ∈ DataType.unresolved_types d -> x ∈ DataModel.reference_classes m)
  /\ (a_auto_import a = true ->
      forall i, i ∈ or_nil (DataType.imports_ d) -> i ∈ DataModel.imports m).
Proof.
  intros H Hr Hinit Hf Hd.
  apply init_inversion in H as (_ & _ & _ & _ & _ & _ & _ & Hrc & Hi).
  apply init_returns_closed_form in Hinit.
  split.
  - intros x Hx. rewrite Hrc, elem_of_elements, elem_of_union. right.
    rewrite collect_unresolved_concat, elem_of_list_to_set.
    rewrite hints_state_unresolved.
    apply elem_of_concat. exists (unresolved_types f). split.
    + apply list_elem_of_fmap_2. apply elem_of_objects. by exists r.
    + rewrite Hinit; simpl. rewrite elem_of_app. right.
      apply elem_of_concat. exists (DataType.unresolved_types d).
      split; [by apply list_elem_of_fmap_2 | done].
  - intros Hauto i Hin. rewrite Hi.
    apply (imports_after_fields self a heap r f i Hauto Hr Hf).
    rewrite Hinit; simpl. rewrite !elem_of_app. right; left.
    apply elem_of_concat. exists (or_nil (DataType.imports_ d)).
    split; [| done].
    by apply (list_elem_of_fmap_2 (fun d => or_nil (DataType.imports_ d))).
Qed.

Lemma atoms_reach_the_model_witness :
  exists m,
    out_result (DataModel.__init__ plain_env CustomRootType
                  (plain_args (py "Widget") [7] None) {[ 7 := two_dates ]}) = inr m
    /\ IMPORT_DATE ∈ DataModel.imports m.
Proof.
  eexists. split; [reflexivity |].
  assert (({[ 7 := two_dates ]} : store) !! 7 = Some two_dates) as Hf
    by apply lookup_singleton_eq.
  refine (proj2 (atoms_reach_the_model no_wide_word plain_env CustomRootType
                   (plain_args (py "Widget") [7] None) {[ 7 := two_dates ]} _ 7
                   span_kwargs two_dates
                   (DataType.mk (py "date") (Some [IMPORT_DATE]) [])
                   eq_refl _ _ Hf _) eq_refl IMPORT_DATE _);
    first [ apply list_elem_of_here
          | exact (proj2 (proj2 concrete_fields_constructed)) ].
Defined.

(** *** The component kind CustomRootType *)

(** X15: constructing a [CustomRootType] never raises the error of a
    missing template path; and with no base class and no custom base
    class its base-class expression is [BaseModel], imported from
    [pydantic.BaseModel] when auto-import is on. *)
Theorem custom_root_type_defaults (env : Env) (a : DataModel.args) (heap : store) :
  (forall msg, out_result (CustomRootType__init__ env a heap) <> inl (Exception msg))
  /\ (forall m,
        out_result (CustomRootType__init__ env a heap) = inr m ->
        DataModel.base_classes m = [] ->
        a_custom_base_class a = None \/ a_custom_base_class a = Some [] ->
        DataModel.base_class m = py "BaseModel"
        /\ (a_auto_import a = true ->
            from_full_path (py "pydantic.BaseModel") ∈ DataModel.imports m)).
Proof.
  unfold CustomRootType__init__. split.
  - intros msg. rewrite init_unfold. simpl.
    destruct (load_template env _); discriminate.
  - intros m H Hb Hc.
    apply init_inversion in H as (_ & _ & _ & _ & Hg & Hbc & _ & _ & Hi).
    rewrite Hg in Hb.
    assert (base_class_full_path CustomRootType a = py "pydantic.BaseModel") as Hfull
      by (unfold base_class_full_path; by destruct Hc as [-> | ->]).
    split.
    + rewrite Hbc, (unstripped_without_base_classes _ _ Hb), Hfull.
      destruct (Str.rsplit1 DOT (a_name a)) as [[module ?]|]; [| done].
      apply strip_base_class_unqualified. compute_done.
    + intros Hauto. rewrite Hi.
      destruct (imports_after_prefix CustomRootType a heap) as [more ->].
      rewrite !elem_of_app. right; left.
      unfold base_class_import. rewrite Hb, Hauto.
      fold (base_class_full_path CustomRootType a). rewrite Hfull.
      apply list_elem_of_here.
Qed.

(** *** Rendering *)

Lemma dom_named (heap : store) (m : DataModel.t) :
  dom (Render.named heap m) = list_to_set reserved_keywords.
Proof.
  unfold Render.named, reserved_keywords.
  rewrite !dom_insert_L, dom_empty_L. simpl. by rewrite !(assoc_L (∪)).
Qed.

Lemma named_lookup (heap : store) (m : DataModel.t) :
  Render.named heap m !! py "class_name" = Some (VText (DataModel.class_name m))
  /\ Render.named heap m !! py "fields"
     = Some (VFields (DataModel.objects heap (DataModel.fields m)))
  /\ Render.named heap m !! py "decorators" = Some (VTexts (DataModel.decorators m))
  /\ Render.named heap m !! py "base_class" = Some (VText (DataModel.base_class m)).
Proof.
  unfold Render.named. split; [| split; [| split]].
  - by rewrite lookup_insert_eq.
  - rewrite lookup_insert_ne by discriminate. by rewrite lookup_insert_eq.
  - rewrite !lookup_insert_ne by discriminate. by rewrite lookup_insert_eq.
  - rewrite !lookup_insert_ne by discriminate. by rewrite lookup_insert_eq.
Qed.

(** X16: [render] hands the template the class name, the field objects
    in their current state, the decorators and the base-class expression
    under their four names, and every entry of the template data under
    its own key, and nothing else. When the template data holds an entry
    under one of the four names or under [self], the call raises
    [TypeError] and the template is not rendered. [str] of a model is
    [render]. *)
Theorem render_keyword_arguments (jinja : Renderer) (heap : store) (m : DataModel.t) :
  let extra := DataModel.extra_template_data m in
  ((exists k, (k ∈ reserved_keywords \/ k = py "self") /\ is_Some (extra !! k)) ->
   Render.render jinja heap m = inl TypeError)
  /\ ((forall k, k ∈ reserved_keywords \/ k = py "self" -> extra !! k = None) ->
      exists kwargs,
        Render.render jinja heap m
        = match jinja (DataModel._template m) kwargs with
          | Some text => inr text
          | None => inl RenderError
          end
        /\ kwargs !! py "class_name" = Some (VText (DataModel.class_name m))
        /\ kwargs !! py "fields"
           = Some (VFields (DataModel.objects heap (DataModel.fields m)))
        /\ kwargs !! py "decorators" = Some (VTexts (DataModel.decorators m))
        /\ kwargs !! py "base_class" = Some (VText (DataModel.base_class m))
        /\ (forall k v, extra !! k = Some v -> kwargs !! k = Some (VText v))
        /\ dom kwargs = list_to_set reserved_keywords ∪ dom extra)
  /\ Render.__str__ jinja heap m = Render.render jinja heap m.
Proof.
  intros extra. subst extra. unfold Render.render. split; [| split; [| done]].
  - intros (k & [Hk | ->] & Hsome).
    + assert (Render.collides (DataModel.extra_template_data m) = true) as ->; [| done].
      apply existsb_exists. exists k. split; [by apply list_elem_of_In |].
      by apply bool_decide_eq_true.
    + destruct (Render.collides (DataModel.extra_template_data m)); [done |].
      unfold Render._render. rewrite bool_decide_eq_true_2; [done |].
      destruct Hsome as [v Hv]. exists (VText v). rewrite lookup_union_r.
      * by rewrite lookup_fmap, Hv.
      * apply not_elem_of_dom. rewrite dom_named. compute_done.
  - intros Hfree.
    assert (Render.collides (DataModel.extra_template_data m) = false) as ->.
    { apply not_true_is_false. intros H. apply existsb_exists in H as (k & Hk & H).
      apply list_elem_of_In in Hk. apply bool_decide_eq_true in H as [v Hv].
      rewrite (Hfree k (or_introl Hk)) in Hv. discriminate. }
    eexists. split.
    { unfold Render._render. rewrite bool_decide_eq_false_2; [reflexivity |].
      intros [v Hv]. apply lookup_union_Some_raw in Hv as [Hv | [_ Hv]].
      - apply (elem_of_dom_2 (D:=gset pystr)) in Hv. rewrite dom_named in Hv.
        revert Hv. compute_done.
      - rewrite lookup_fmap, (Hfree (py "self") (or_intror eq_refl)) in Hv.
        discriminate. }
    destruct (named_lookup heap m) as (H1 & H2 & H3 & H4).
    split; [by apply lookup_union_Some_l |].
    split; [by apply lookup_union_Some_l |].
    split; [by apply lookup_union_Some_l |].
    split; [by apply lookup_union_Some_l |]. split.
    + intros k v Hv. rewrite lookup_union_r.
      * by rewrite lookup_fmap, Hv.
      * apply not_elem_of_dom. rewrite dom_named, elem_of_list_to_set.
        intros Hk. rewrite (Hfree k (or_introl Hk)) in Hv. discriminate.
    + by rewrite dom_union_L, dom_named, dom_fmap_L.
Qed.

Lemma render_keyword_arguments_witness :
  exists m,
    out_result (DataModel.__init__ plain_env CustomRootType
                  (plain_args (py "pkg.Widget") [0] (Some [py "pkg.Base"]))
                  widget_store) = inr m
    /\ Render.render header_renderer widget_store m
       = inr (py "class Widget(Base)").
Proof.
  eexists. split; [reflexivity |].
  destruct (proj1 (proj2 (render_keyword_arguments header_renderer widget_store
                            (DataModel.mk (py "pkg.Widget") [0] [] [] (py "Base")
                               [py "pkg.Base"] [py "pkg.Base"] (py "Widget") ∅
                               (py "pydantic/BaseModel_root.jinja2") (py ""))))
              ltac:(intros k _; apply lookup_empty))
    as (kwargs & Hr & Hc & _ & _ & Hb & _).
  etransitivity; [exact Hr |].
  unfold header_renderer. by rewrite Hc, Hb.
Defined.
